(** * The MCP aggregator: routing of JSON-RPC envelopes between two backends

    A shallow embedding of [aggregator-server/src/index.ts]: the class
    [McpAggregator] ([isAtlassianTool], [forwardRequest], [getAllTools],
    [handleRequest]) and the worker's [fetch] entry point.

    The program is JavaScript, so the embedding keeps what the language does
    with the values the program touches: property reads on [null] raise a
    [TypeError], conditions test truthiness, the spread of a string yields
    its code points, a call with more arguments than the engine takes
    raises a [RangeError], and [try]/[catch] recovers from what was raised.
    The network is an oracle that answers each outbound call from the
    history of the calls made before it; every call is recorded in a
    trace. *)

From Stdlib Require Import List NArith ZArith Bool Ascii String Lia.
From Stdlib Require Import Floats.
Import ListNotations.

Set Implicit Arguments.

(** ** JavaScript strings and JSON values *)

(** A JavaScript string is a sequence of UTF-16 code units. *)
Definition jsstring := list N.

(** The string written by an ASCII literal of the source. *)
Definition lit (s : string) : jsstring :=
  map N_of_ascii (list_ascii_of_string s).

Fixpoint jsstring_eqb (s t : jsstring) : bool :=
  match s, t with
  | [], [] => true
  | c :: s', d :: t' => N.eqb c d && jsstring_eqb s' t'
  | _, _ => false
  end.

(** [s.startsWith(p)]: code unit by code unit. *)
Fixpoint startsWith (s p : jsstring) {struct p} : bool :=
  match p, s with
  | [], _ => true
  | d :: p', c :: s' => N.eqb c d && startsWith s' p'
  | _ :: _, [] => false
  end.

(** The iteration of a string goes by code points: a high surrogate
    directly followed by a low one is one element, any other code unit is an
    element of its own. *)
Definition is_high_surrogate (c : N) : bool := (55296 <=? c)%N && (c <=? 56319)%N.
Definition is_low_surrogate (c : N) : bool := (56320 <=? c)%N && (c <=? 57343)%N.

Fixpoint code_points (s : jsstring) : list jsstring :=
  match s with
  | [] => []
  | c :: rest =>
      match rest with
      | d :: rest' =>
          if is_high_surrogate c && is_low_surrogate d
          then [c; d] :: code_points rest'
          else [c] :: code_points rest
      | [] => [[c]]
      end
  end.

(** What [JSON.parse] can produce.  A number is an IEEE 754 binary64; an
    object is the list of its own properties, whose keys the parser keeps
    pairwise distinct (of a repeated key only the last value survives). *)
#[local] Unset Elimination Schemes.
Inductive json : Type :=
| JNull
| JBool (b : bool)
| JNum (x : float)
| JStr (s : jsstring)
| JArr (elems : list json)
| JObj (props : list (jsstring * json)).
#[local] Set Elimination Schemes.

(** A value of the language as the program meets it: [undefined], or a
    value that came from JSON. *)
Inductive value : Type :=
| Undefined
| Val (j : json).

Fixpoint lookup (k : jsstring) (props : list (jsstring * json)) : value :=
  match props with
  | [] => Undefined
  | (k', v) :: rest => if jsstring_eqb k k' then Val v else lookup k rest
  end.

(** An object literal of the source.  A property whose value is [undefined]
    is left out: the program only reads such an object back through
    [.error] and [.result] and through [JSON.stringify], which skips these
    properties, so the two objects are the same to it. *)
Fixpoint defined_props (fields : list (jsstring * value)) : list (jsstring * json) :=
  match fields with
  | [] => []
  | (k, Undefined) :: rest => defined_props rest
  | (k, Val v) :: rest => (k, v) :: defined_props rest
  end.

Definition object (fields : list (jsstring * value)) : json :=
  JObj (defined_props fields).

(** [ToBoolean]: the falsy values are [undefined], [null], [false], [+0],
    [-0], [NaN] and the empty string. *)
Definition truthy (v : value) : bool :=
  match v with
  | Undefined => false
  | Val JNull => false
  | Val (JBool b) => b
  | Val (JNum x) => negb (PrimFloat.eqb x 0%float) && PrimFloat.eqb x x
  | Val (JStr s) => match s with [] => false | _ => true end
  | Val (JArr _) => true
  | Val (JObj _) => true
  end.

(** ** Exceptions and the trace of outbound calls *)

(** The errors the language raises in this program: three [TypeError]s
    and the [RangeError] of a call with too many arguments. *)
Inductive type_error : Type :=
| ReadOfNullish (key : jsstring)      (* [null.key] or [undefined.key] *)
| NotAFunction (key : jsstring)       (* [v.key(...)] where [v.key] is no function *)
| NotIterable                         (* [...v] where [v] has no iterator *)
| TooManyArguments.                   (* [f(...v)] with more arguments than the engine takes *)

(** What the program depends on and the source does not fix: the number
    of arguments the engine takes in one call, and the text of
    [new Date().toISOString()] when the request is handled. *)
Record Engine : Type := {
  max_arguments : nat;
  current_time : jsstring
}.

(** What a rejected platform promise carries, as [forwardRequest]'s [catch]
    sees it: an [Error] (or a subclass) with its message, or anything else. *)
Inductive thrown : Type :=
| ErrorInstance (message : jsstring)
| NotAnError.

(** One outbound call: [fetch(serverUrl, { method: 'POST', body:
    JSON.stringify(message) })].  Serialisation is injective on JSON
    values, so the call is recorded with the message itself. *)
Record call : Type := Call { call_url : jsstring; call_body : json }.

(** [response.json()] of a received response. *)
Inductive body_result : Type :=
| Parsed (j : json)
| Unparseable (e : thrown).

(** The outcome of one [fetch]: the promise rejects, or a response arrives
    with its status line and body. *)
Inductive fetch_result : Type :=
| Rejected (e : thrown)
| Responded (status : N) (statusText : jsstring) (body : body_result).

(** The network answers a call knowing the calls that came before it. *)
Definition network := list call -> call -> fetch_result.

Inductive completion (A : Type) : Type :=
| Normal (a : A)
| Abrupt (e : type_error).
Arguments Normal {A} a.
Arguments Abrupt {A} e.

(** A computation reads and extends the trace and completes normally or
    abruptly. *)
Definition M (A : Type) : Type := list call -> completion A * list call.

Definition ret {A} (a : A) : M A := fun tr => (Normal a, tr).
Definition throw {A} (e : type_error) : M A := fun tr => (Abrupt e, tr).
Definition bind {A B} (m : M A) (k : A -> M B) : M B :=
  fun tr =>
    match m tr with
    | (Normal a, tr') => k a tr'
    | (Abrupt e, tr') => (Abrupt e, tr')
    end.
Definition try_catch {A} (m : M A) (handler : type_error -> M A) : M A :=
  fun tr =>
    match m tr with
    | (Normal a, tr') => (Normal a, tr')
    | (Abrupt e, tr') => handler e tr'
    end.

Notation "x <- m ;; k" := (bind m (fun x => k))
  (at level 61, m at next level, right associativity).

(** ** Property reads *)

(** [v.key] for the keys the program reads ([method], [id], [params],
    [name], [result], [tools], [error]): none of them is an own or
    inherited property of a string, a number, a boolean or an array. *)
Definition member (v : value) (key : jsstring) : M value :=
  match v with
  | Undefined | Val JNull => throw (ReadOfNullish key)
  | Val (JObj props) => ret (lookup key props)
  | Val _ => ret Undefined
  end.

(** [v?.key] *)
Definition optional_member (v : value) (key : jsstring) : M value :=
  match v with
  | Undefined | Val JNull => ret Undefined
  | _ => member v key
  end.

(** [v === 'literal'] *)
Definition strict_eq_string (v : value) (s : jsstring) : bool :=
  match v with
  | Val (JStr t) => jsstring_eqb t s
  | _ => false
  end.

(** ** Number and string conversions *)

Definition digit (d : N) : N := (48 + d)%N.

Fixpoint digits_of_uint (u : Decimal.uint) : jsstring :=
  match u with
  | Decimal.Nil => []
  | Decimal.D0 u' => digit 0 :: digits_of_uint u'
  | Decimal.D1 u' => digit 1 :: digits_of_uint u'
  | Decimal.D2 u' => digit 2 :: digits_of_uint u'
  | Decimal.D3 u' => digit 3 :: digits_of_uint u'
  | Decimal.D4 u' => digit 4 :: digits_of_uint u'
  | Decimal.D5 u' => digit 5 :: digits_of_uint u'
  | Decimal.D6 u' => digit 6 :: digits_of_uint u'
  | Decimal.D7 u' => digit 7 :: digits_of_uint u'
  | Decimal.D8 u' => digit 8 :: digits_of_uint u'
  | Decimal.D9 u' => digit 9 :: digits_of_uint u'
  end.

(** [`${response.status}`]: the status is an unsigned short, printed in
    decimal. *)
Definition status_to_string (status : N) : jsstring :=
  digits_of_uint (N.to_uint status).

(** [response.ok]: the status is in the range 200-299. *)
Definition response_ok (status : N) : bool :=
  (200 <=? status)%N && (status <=? 299)%N.

(** ** class McpAggregator *)

Record Env : Type := {
  EXISTING_MCP_SERVER_URL : value;
  ATLASSIAN_MCP_SERVER_URL : value
}.

Record McpAggregator : Type := {
  existingServerUrl : jsstring;
  atlassianServerUrl : jsstring
}.

(** [configured || fallback] on a binding that is a string when it is set. *)
Definition or_default (configured : value) (fallback : jsstring) : jsstring :=
  match configured with
  | Val (JStr s) => if truthy configured then s else fallback
  | _ => fallback
  end.

Definition default_existing_url : jsstring :=
  lit "https://remote-mcp-server-authless.gladden4work.workers.dev".
Definition default_atlassian_url : jsstring :=
  lit "https://atlassian-mcp-server.gladden4work.workers.dev".

Definition constructor (env : Env) : McpAggregator :=
  {| existingServerUrl := or_default (EXISTING_MCP_SERVER_URL env) default_existing_url;
     atlassianServerUrl := or_default (ATLASSIAN_MCP_SERVER_URL env) default_atlassian_url |}.

Definition atlassianPrefixes : list jsstring :=
  [lit "jira_"; lit "confluence_"; lit "atlassian_"].

(** [atlassianPrefixes.some(prefix => toolName.startsWith(prefix))] for a
    string [toolName]. *)
Definition isAtlassianTool (toolName : jsstring) : bool :=
  existsb (fun prefix => startsWith toolName prefix) atlassianPrefixes.

Definition internal_error_code : float := (-32603)%float.
Definition invalid_params_code : float := (-32602)%float.
Definition parse_error_code : float := (-32700)%float.

Definition error_envelope (id : value) (code : float) (message : jsstring) : json :=
  object [ (lit "jsonrpc", Val (JStr (lit "2.0")));
           (lit "id", id);
           (lit "error", Val (JObj [ (lit "code", JNum code);
                                     (lit "message", JStr message) ])) ].

(** The body of [forwardRequest]'s [try]: what the awaited [fetch], the
    test of [response.ok] and [response.json()] yield, or what they throw. *)
Definition attempt (r : fetch_result) : json + thrown :=
  match r with
  | Rejected e => inr e
  | Responded status statusText body =>
      if negb (response_ok status) then
        inr (ErrorInstance (lit "Server responded with " ++ status_to_string status
                              ++ lit ": " ++ statusText))
      else
        match body with
        | Parsed j => inl j
        | Unparseable e => inr e
        end
  end.

(** [error instanceof Error ? error.message : 'Unknown error'] *)
Definition cause (e : thrown) : jsstring :=
  match e with
  | ErrorInstance message => message
  | NotAnError => lit "Unknown error"
  end.

Section Aggregator.

Variable engine : Engine.
Variable net : network.

(** The outbound call itself: recorded, and answered by the network. *)
Definition fetch_post (serverUrl : jsstring) (message : json) : M fetch_result :=
  fun tr =>
    let c := Call serverUrl message in
    (Normal (net tr c), tr ++ [c]).

Definition forwardRequest (serverUrl : jsstring) (message : json) : M json :=
  r <- fetch_post serverUrl message ;;
  match attempt r with
  | inl response => ret response
  | inr error =>
      id <- member (Val message) (lit "id") ;;
      ret (error_envelope id internal_error_code
             (lit "Failed to contact server: " ++ cause error))
  end.

(** The arguments of a call, as many as the engine takes. *)
Definition arguments (items : list json) : M (list json) :=
  if (List.length items <=? max_arguments engine)%nat then ret items
  else throw TooManyArguments.

(** [...v] as the arguments of a call: the elements of an array, the code
    points of a string; the other values JSON can produce have no
    iterator. *)
Definition spread (v : value) : M (list json) :=
  match v with
  | Val (JArr elems) => arguments elems
  | Val (JStr s) => arguments (map JStr (code_points s))
  | _ => throw NotIterable
  end.

Definition tools_list_request (id : float) : json :=
  object [ (lit "jsonrpc", Val (JStr (lit "2.0")));
           (lit "id", Val (JNum id));
           (lit "method", Val (JStr (lit "tools/list"))) ].

(** One of the two [try] blocks of [getAllTools], which differ in the
    server and in the id of the request only.  [tools.push] runs after its
    arguments are evaluated, so a block that raises leaves [tools] as it
    was; the [catch] writes to the console and goes on. *)
Definition gather (serverUrl : jsstring) (id : float) (tools : list json) : M (list json) :=
  try_catch
    (response <- forwardRequest serverUrl (tools_list_request id) ;;
     result <- member (Val response) (lit "result") ;;
     listed <- optional_member result (lit "tools") ;;
     if truthy listed then
       result' <- member (Val response) (lit "result") ;;
       listed' <- member result' (lit "tools") ;;
       items <- spread listed' ;;
       ret (tools ++ items)
     else ret tools)
    (fun _ => ret tools).

Variable this : McpAggregator.

Definition getAllTools : M (list json) :=
  tools <- gather (existingServerUrl this) 1%float [] ;;
  tools <- gather (atlassianServerUrl this) 2%float tools ;;
  ret tools.

Definition initialize_result : json :=
  JObj [ (lit "protocolVersion", JStr (lit "2024-11-05"));
         (lit "capabilities", JObj [ (lit "tools", JObj []) ]);
         (lit "serverInfo", JObj [ (lit "name", JStr (lit "mcp-aggregator-server"));
                                   (lit "version", JStr (lit "1.0.0")) ]) ].

Definition result_envelope (id : value) (result : json) : json :=
  object [ (lit "jsonrpc", Val (JStr (lit "2.0")));
           (lit "id", id);
           (lit "result", Val result) ].

(** [this.isAtlassianTool(toolName)] on the value found in the envelope:
    only a string has a [startsWith] method. *)
Definition call_isAtlassianTool (toolName : value) : M bool :=
  match toolName with
  | Val (JStr s) => ret (isAtlassianTool s)
  | _ => throw (NotAFunction (lit "startsWith"))
  end.

Definition handleRequest (message : json) : M json :=
  method <- member (Val message) (lit "method") ;;
  if strict_eq_string method (lit "initialize") then
    id <- member (Val message) (lit "id") ;;
    ret (result_envelope id initialize_result)
  else if strict_eq_string method (lit "tools/list") then
    allTools <- getAllTools ;;
    id <- member (Val message) (lit "id") ;;
    ret (result_envelope id (JObj [ (lit "tools", JArr allTools) ]))
  else if strict_eq_string method (lit "tools/call") then
    params <- member (Val message) (lit "params") ;;
    toolName <- optional_member params (lit "name") ;;
    if negb (truthy toolName) then
      id <- member (Val message) (lit "id") ;;
      ret (error_envelope id invalid_params_code (lit "Missing tool name in parameters"))
    else
      atlassian <- call_isAtlassianTool toolName ;;
      let targetUrl := if atlassian then atlassianServerUrl this
                       else existingServerUrl this in
      forwardRequest targetUrl message
  else
    existingResponse <- forwardRequest (existingServerUrl this) message ;;
    error <- member (Val existingResponse) (lit "error") ;;
    if negb (truthy error) then ret existingResponse
    else forwardRequest (atlassianServerUrl this) message.

End Aggregator.

(** ** The worker's [fetch] entry point *)

(** What the entry point reads of the request: its method, the path of its
    URL, and what [request.json()] gives. *)
Record Request : Type := {
  req_method : jsstring;
  req_pathname : jsstring;
  req_json : body_result
}.

(** Response bodies: none, one of the two plain texts (kept apart but not
    spelled out), or [JSON.stringify] of a value.  Headers are the same
    permissive ones on every answer. *)
Inductive response_body : Type :=
| NoBody
| SseText
| HelpText (existing atlassian : jsstring)
| JsonBody (j : json).

(** The document GET /status sends. *)
Definition status_document (existing atlassian timestamp : jsstring) : json :=
  JObj [ (lit "status", JStr (lit "active"));
         (lit "servers", JObj [ (lit "existing", JStr existing);
                                (lit "atlassian", JStr atlassian) ]);
         (lit "timestamp", JStr timestamp) ].

Record Response : Type := { status : N; body : response_body }.

Definition parse_error_response : Response :=
  {| status := 400;
     body := JsonBody (JObj [ (lit "jsonrpc", JStr (lit "2.0"));
                              (lit "error", JObj [ (lit "code", JNum parse_error_code);
                                                   (lit "message", JStr (lit "Parse error")) ]) ]) |}.

Definition fetch (engine : Engine) (net : network) (request : Request) (env : Env)
  : M Response :=
  if jsstring_eqb (req_method request) (lit "OPTIONS") then
    ret {| status := 200; body := NoBody |}
  else if jsstring_eqb (req_pathname request) (lit "/sse")
          && jsstring_eqb (req_method request) (lit "GET") then
    ret {| status := 200; body := SseText |}
  else if jsstring_eqb (req_pathname request) (lit "/status")
          && jsstring_eqb (req_method request) (lit "GET") then
    ret {| status := 200;
           body := JsonBody
                     (status_document
                        (or_default (EXISTING_MCP_SERVER_URL env) default_existing_url)
                        (or_default (ATLASSIAN_MCP_SERVER_URL env) default_atlassian_url)
                        (current_time engine)) |}
  else if jsstring_eqb (req_method request) (lit "POST") then
    match req_json request with
    | Unparseable _ => ret parse_error_response
    | Parsed message =>
        try_catch
          (response <- handleRequest engine net (constructor env) message ;;
           ret {| status := 200; body := JsonBody response |})
          (fun _ => ret parse_error_response)
    end
  else
    ret {| status := 200;
           body := HelpText
                     (or_default (EXISTING_MCP_SERVER_URL env) default_existing_url)
                     (or_default (ATLASSIAN_MCP_SERVER_URL env) default_atlassian_url) |}.

(** ** Reading the model *)

(** The member [key] of an envelope, as a property read finds it. *)
Definition field (j : json) (key : jsstring) : value :=
  match j with
  | JObj props => lookup key props
  | _ => Undefined
  end.

Definition id_of (envelope : json) : value := field envelope (lit "id").

(** The code and the message of an envelope's [error] member. *)
Definition error_code_of (envelope : json) : value :=
  match field envelope (lit "error") with
  | Val e => field e (lit "code")
  | Undefined => Undefined
  end.

Definition error_message_of (envelope : json) : value :=
  match field envelope (lit "error") with
  | Val e => field e (lit "message")
  | Undefined => Undefined
  end.

(** [p] is an initial segment of [n]. *)
Definition has_prefix (p n : jsstring) : Prop := exists rest, n = p ++ rest.

(** The transport failures of one outbound call, each with the text that
    describes it: the call itself fails, the status is outside 200-299, or
    the body of a 2xx answer does not parse. *)
Inductive failure_cause : fetch_result -> jsstring -> Prop :=
| network_error message :
    failure_cause (Rejected (ErrorInstance message)) message
| network_error_unknown :
    failure_cause (Rejected NotAnError) (lit "Unknown error")
| bad_status status statusText body :
    (status < 200 \/ 299 < status)%N ->
    failure_cause (Responded status statusText body)
      (lit "Server responded with " ++ status_to_string status ++ lit ": " ++ statusText)
| bad_body status statusText message :
    (200 <= status <= 299)%N ->
    failure_cause (Responded status statusText (Unparseable (ErrorInstance message))) message
| bad_body_unknown status statusText :
    (200 <= status <= 299)%N ->
    failure_cause (Responded status statusText (Unparseable NotAnError)) (lit "Unknown error").

(** The one outcome that is no failure: a 2xx answer whose body parses. *)
Definition delivered (r : fetch_result) (j : json) : Prop :=
  exists status statusText,
    (200 <= status <= 299)%N /\ r = Responded status statusText (Parsed j).

(** ** Reading envelopes and answers *)

Definition has_method (message : json) (name : string) : Prop :=
  field message (lit "method") = Val (JStr (lit name)).

(** [params.name] of an envelope, [undefined] when there is none. *)
Definition tool_name_of (message : json) : value :=
  match field message (lit "params") with
  | Val params => field params (lit "name")
  | Undefined => Undefined
  end.

(** [result.tools] of an answer, [undefined] when there is none. *)
Definition tools_member (response : json) : value :=
  match field response (lit "result") with
  | Val result => field result (lit "tools")
  | Undefined => Undefined
  end.

(** What the backend client hands back for one outcome of the call. *)
Definition answer (message : json) (r : fetch_result) : json :=
  match attempt r with
  | inl response => response
  | inr error =>
      error_envelope (id_of message) internal_error_code
        (lit "Failed to contact server: " ++ cause error)
  end.

(** What the spread of a value yields: the entries of an array, the code
    points of a string. *)
Inductive iterates : value -> list json -> Prop :=
| iterates_array elems : iterates (Val (JArr elems)) elems
| iterates_string s : iterates (Val (JStr s)) (map JStr (code_points s)).

(** What one backend adds to the merged catalogue: the entries of its
    [result.tools] array, in order, or the code points of a [result.tools]
    that is a string, when the engine takes that many arguments; nothing
    when there are more, when the call failed, or when [result.tools] is
    anything else. *)
Inductive contributes (engine : Engine) : fetch_result -> list json -> Prop :=
| contributes_failed r why :
    failure_cause r why -> contributes engine r []
| contributes_items r response items :
    delivered r response -> iterates (tools_member response) items ->
    (List.length items <= max_arguments engine)%nat ->
    contributes engine r items
| contributes_oversized r response items :
    delivered r response -> iterates (tools_member response) items ->
    (max_arguments engine < List.length items)%nat ->
    contributes engine r []
| contributes_nothing r response :
    delivered r response ->
    (forall items, ~ iterates (tools_member response) items) ->
    contributes engine r [].

(** The merged catalogue as the specification words it: a backend counts
    for the entries of its [result.tools] array and for nothing else. *)
Definition claimed_contribution (r : fetch_result) : list json :=
  match attempt r with
  | inl response =>
      match tools_member response with
      | Val (JArr elems) => elems
      | _ => []
      end
  | inr _ => []
  end.

(** The arguments that go through. *)
Definition pushed (engine : Engine) (items : list json) : list json :=
  if (List.length items <=? max_arguments engine)%nat then items else [].

(** The same, as a function of the answer the client handed back. *)
Definition contribution (engine : Engine) (response : json) : list json :=
  match tools_member response with
  | Val (JArr elems) => pushed engine elems
  | Val (JStr s) => pushed engine (map JStr (code_points s))
  | _ => []
  end.

(** A well-formed envelope: [jsonrpc] is '2.0' and there is a [result] or
    an [error]. *)
Definition well_formed (envelope : json) : Prop :=
  field envelope (lit "jsonrpc") = Val (JStr (lit "2.0"))
  /\ (field envelope (lit "result") <> Undefined
      \/ field envelope (lit "error") <> Undefined).

(** ** The specification's sentences, where the program departs from them *)

(** The merged catalogue counts, for each backend, the entries of its
    [result.tools] array and nothing else. *)
Definition merge_as_claimed (engine : Engine) (net : network) (this : McpAggregator)
    (message : json) : Prop :=
  let c1 := Call (existingServerUrl this) (tools_list_request 1) in
  let c2 := Call (atlassianServerUrl this) (tools_list_request 2) in
  handleRequest engine net this message []
  = (Normal (result_envelope (id_of message)
               (JObj [ (lit "tools",
                        JArr (claimed_contribution (net [] c1)
                              ++ claimed_contribution (net [c1] c2))) ])),
     [c1; c2]).

(** A tools/call whose params carry a name goes to one of the two
    backends, and the answer of that one call is what comes back. *)
Definition dispatch_as_claimed (engine : Engine) (net : network) (this : McpAggregator)
    (message : json) : Prop :=
  forall name, tool_name_of message = Val name ->
  exists target,
    (target = existingServerUrl this \/ target = atlassianServerUrl this)
    /\ handleRequest engine net this message []
       = (Normal (answer message (net [] (Call target message))),
          [Call target message]).

(** The fallback chain decides on the presence of an [error] member in the
    first answer. *)
Definition fallback_as_claimed (engine : Engine) (net : network) (this : McpAggregator)
    (message : json) : Prop :=
  let c1 := Call (existingServerUrl this) message in
  let c2 := Call (atlassianServerUrl this) message in
  let first := answer message (net [] c1) in
  (field first (lit "error") = Undefined ->
   handleRequest engine net this message [] = (Normal first, [c1]))
  /\ (field first (lit "error") <> Undefined ->
      handleRequest engine net this message []
      = (Normal (answer message (net [c1] c2)), [c1; c2])).

(** [handleRequest] completes normally with a well-formed envelope. *)
Definition total_as_claimed (engine : Engine) (net : network) (this : McpAggregator)
    (message : json) : Prop :=
  exists response tr,
    handleRequest engine net this message [] = (Normal response, tr)
    /\ well_formed response.

(** ** Sample requests and networks *)

Definition no_env : Env :=
  {| EXISTING_MCP_SERVER_URL := Undefined; ATLASSIAN_MCP_SERVER_URL := Undefined |}.

Definition sample_aggregator : McpAggregator := constructor no_env.

(** [{"jsonrpc":"2.0","id":7,"method":...,"params":...}] *)
Definition request_envelope (method : string) (params : value) : json :=
  object [ (lit "jsonrpc", Val (JStr (lit "2.0")));
           (lit "id", Val (JNum 7));
           (lit "method", Val (JStr (lit method)));
           (lit "params", params) ].

Definition call_of (toolName : json) : json :=
  request_envelope "tools/call" (Val (JObj [ (lit "name", toolName) ])).

(** An engine that takes 4096 arguments, at some time. *)
Definition sample_engine : Engine :=
  {| max_arguments := 4096; current_time := lit "2025-01-01T00:00:00.000Z" |}.

(** Every call fails to connect. *)
Definition net_down : network :=
  fun _ _ => Rejected (ErrorInstance (lit "fetch failed")).

(** The existing server and the Atlassian server answer as given. *)
Definition net_of (existing atlassian : fetch_result) : network :=
  fun _ c =>
    if jsstring_eqb (call_url c) default_existing_url then existing else atlassian.

Definition ok (j : json) : fetch_result := Responded 200 (lit "OK") (Parsed j).

Definition jira_search_tool : json :=
  JObj [ (lit "name", JStr (lit "jira_search"));
         (lit "description", JStr (lit "Search Jira issues with JQL"));
         (lit "inputSchema", JObj [ (lit "type", JStr (lit "object")) ]) ].

(** A tools/list answer whose [result.tools] is the given value. *)
Definition listing (id : float) (tools : json) : json :=
  JObj [ (lit "jsonrpc", JStr (lit "2.0"));
         (lit "id", JNum id);
         (lit "result", JObj [ (lit "tools", tools) ]) ].

(** An answer in the JSON-RPC shape whose [error] member is the number 0. *)
Definition zero_error_answer : json :=
  JObj [ (lit "jsonrpc", JStr (lit "2.0"));
         (lit "id", JNum 7);
         (lit "error", JNum 0) ].

(** A 2xx answer that is no envelope. *)
Definition plain_answer : json := JObj [ (lit "ok", JBool true) ].

Definition pong : json :=
  JObj [ (lit "jsonrpc", JStr (lit "2.0"));
         (lit "id", JNum 7);
         (lit "result", JObj []) ].

Definition post (body : body_result) : Request :=
  {| req_method := lit "POST"; req_pathname := lit "/"; req_json := body |}.

(** Where a call of [handleRequest] may go and what it may carry. *)
Definition routed (this : McpAggregator) (message : json) (c : call) : Prop :=
  (call_url c = existingServerUrl this \/ call_url c = atlassianServerUrl this)
  /\ (call_body c = message \/ call_body c = tools_list_request 1
      \/ call_body c = tools_list_request 2).

(** ** A value on the wire *)

(** [JSON.parse(JSON.stringify(x))] of a number: NaN and the infinities
    are written "null", both zeros are written "0", and every other number
    is written with digits that read back as the same number. *)
Definition wire_number (x : float) : json :=
  if PrimFloat.ltb (PrimFloat.abs x) PrimFloat.infinity then
    JNum (if PrimFloat.eqb x 0%float then 0%float else x)
  else JNull.

(** [JSON.parse(JSON.stringify(j))] of a value that came from JSON: the
    numbers as above, everything else as it is (a string keeps its code
    units, a lone surrogate being written as an escape; the properties of
    an object are written and read in the order the object has them). *)
Fixpoint wire (j : json) : json :=
  match j with
  | JNum x => wire_number x
  | JArr elems => JArr (map wire elems)
  | JObj props => JObj (map (fun kv => (fst kv, wire (snd kv))) props)
  | JNull | JBool _ | JStr _ => j
  end.

Definition wire_value (v : value) : value :=
  match v with
  | Undefined => Undefined
  | Val j => Val (wire j)
  end.

(** ** The Atlassian server ([atlassian-server/src/index.ts]) *)

(** What a tool handler gives for its arguments: the object it resolves
    to, or what it throws.  The handlers talk to the Atlassian REST API;
    their bodies are not modelled. *)
Inductive handler_outcome : Type :=
| Returned (result : json)
| Threw (e : thrown).

(** An insertion-ordered [Map] with string keys: [set] on a key that is
    there replaces the value and keeps the position, [set] on a new key
    appends. *)
Fixpoint map_set {V : Type} (k : jsstring) (v : V) (m : list (jsstring * V))
  : list (jsstring * V) :=
  match m with
  | [] => [(k, v)]
  | (k', v') :: rest =>
      if jsstring_eqb k k' then (k', v) :: rest else (k', v') :: map_set k v rest
  end.

Fixpoint map_get {V : Type} (k : jsstring) (m : list (jsstring * V)) : option V :=
  match m with
  | [] => None
  | (k', v) :: rest => if jsstring_eqb k k' then Some v else map_get k rest
  end.

Module Atlassian.

Record Tool : Type := {
  description : jsstring;
  inputSchema : json;
  handler : value -> handler_outcome
}.

(** [{ type: ..., description: ... }] *)
Definition property (type description : string) : json :=
  JObj [ (lit "type", JStr (lit type)); (lit "description", JStr (lit description)) ].

(** The same with a [default]. *)
Definition property_with_default (type description default : string) : json :=
  JObj [ (lit "type", JStr (lit type));
         (lit "description", JStr (lit description));
         (lit "default", JStr (lit default)) ].

Definition schema (properties : list (jsstring * json)) (required : list string) : json :=
  JObj [ (lit "type", JStr (lit "object"));
         (lit "properties", JObj properties);
         (lit "required", JArr (map (fun r => JStr (lit r)) required)) ].

(** [{ type: 'object', properties: {} }]: the two listing tools declare no
    [required]. *)
Definition empty_schema : json :=
  JObj [ (lit "type", JStr (lit "object")); (lit "properties", JObj []) ].

Definition jira_search_schema : json :=
  schema [ (lit "jql", property "string" "JQL query string");
           (lit "maxResults", property "number" "Max results (default: 50)") ]
         [ "jql"%string ].

Definition jira_create_issue_schema : json :=
  schema [ (lit "project", property "string" "Project key");
           (lit "summary", property "string" "Issue summary");
           (lit "description", property "string" "Issue description");
           (lit "issueType",
            property_with_default "string" "Issue type (e.g., Task, Bug, Story)" "Task");
           (lit "priority",
            property_with_default "string" "Priority (e.g., High, Medium, Low)" "Medium") ]
         [ "project"%string; "summary"%string ].

Definition confluence_search_schema : json :=
  schema [ (lit "query", property "string" "Search query");
           (lit "spaceKey", property "string" "Limit to specific space");
           (lit "maxResults", property "number" "Max results (default: 25)") ]
         [ "query"%string ].

Definition confluence_create_page_schema : json :=
  schema [ (lit "spaceKey", property "string" "Space key where to create the page");
           (lit "title", property "string" "Page title");
           (lit "content", property "string" "Page content (HTML)");
           (lit "parentId", property "string" "Parent page ID (optional)") ]
         [ "spaceKey"%string; "title"%string; "content"%string ].

Section Agent.

(** [Number::toString], the text a template literal gives a number. *)
Variable number_to_string : float -> jsstring.

(** The handler registered under a name, run on its arguments. *)
Variable run_handler : jsstring -> value -> handler_outcome.

Definition tool (name description : string) (inputSchema : json) : jsstring * Tool :=
  (lit name,
   {| description := lit description;
      inputSchema := inputSchema;
      handler := run_handler (lit name) |}).

Definition register (entry : jsstring * Tool) (tools : list (jsstring * Tool))
  : list (jsstring * Tool) :=
  map_set (fst entry) (snd entry) tools.

(** [initializeTools]: six [this.tools.set] on the empty map, in the order
    of the source. *)
Definition initializeTools : list (jsstring * Tool) :=
  register (tool "confluence_list_spaces" "List all accessible Confluence spaces" empty_schema)
  (register (tool "jira_list_projects" "List all accessible Jira projects" empty_schema)
  (register (tool "confluence_create_page" "Create a new Confluence page"
               confluence_create_page_schema)
  (register (tool "confluence_search" "Search Confluence content" confluence_search_schema)
  (register (tool "jira_create_issue" "Create a new Jira issue" jira_create_issue_schema)
  (register (tool "jira_search" "Search for Jira issues using JQL" jira_search_schema)
     []))))).

(** [ToString] of a value that came from JSON, [None] when it raises a
    [TypeError].  An array joins its elements with commas, [null] counting
    for the empty string; an object is "[object Object]" unless it has an
    own [toString] property, which no JSON value can make callable. *)
Fixpoint to_string (j : json) : option jsstring :=
  match j with
  | JNull => Some (lit "null")
  | JBool b => Some (if b then lit "true" else lit "false")
  | JNum x => Some (number_to_string x)
  | JStr s => Some s
  | JArr elems =>
      (fix join (l : list json) : option jsstring :=
         match l with
         | [] => Some []
         | e :: rest =>
             match (match e with JNull => Some [] | _ => to_string e end) with
             | None => None
             | Some s =>
                 match rest with
                 | [] => Some s
                 | _ :: _ =>
                     match join rest with
                     | None => None
                     | Some t => Some (s ++ lit "," ++ t)
                     end
                 end
             end
         end) elems
  | JObj props =>
      match lookup (lit "toString") props with
      | Undefined => Some (lit "[object Object]")
      | Val _ => None
      end
  end.

(** [`${v}`]; the [TypeError] of a value that has no primitive form is
    recorded as the [toString] that could not be called. *)
Definition template (v : value) : M jsstring :=
  match v with
  | Undefined => ret (lit "undefined")
  | Val j =>
      match to_string j with
      | Some s => ret s
      | None => throw (NotAFunction (lit "toString"))
      end
  end.

(** [this.tools.get(name)]: every key is a string, so only a string finds
    one. *)
Definition tools_get (name : value) : option Tool :=
  match name with
  | Val (JStr s) => map_get s initializeTools
  | _ => None
  end.

(** [({ name, description: tool.description, inputSchema: tool.inputSchema })] *)
Definition descriptor (entry : jsstring * Tool) : json :=
  JObj [ (lit "name", JStr (fst entry));
         (lit "description", JStr (description (snd entry)));
         (lit "inputSchema", inputSchema (snd entry)) ].

Definition method_not_found_code : float := (-32601)%float.

Definition initialize_result : json :=
  JObj [ (lit "protocolVersion", JStr (lit "2024-11-05"));
         (lit "capabilities", JObj [ (lit "tools", JObj []) ]);
         (lit "serverInfo", JObj [ (lit "name", JStr (lit "atlassian-mcp-server"));
                                   (lit "version", JStr (lit "1.0.0")) ]) ].

(** The destructuring [const { name, arguments: args } = message.params]
    reads the two properties and raises on [null] and [undefined], as a
    property read does. *)
Definition handleRequest (message : json) : M json :=
  method <- member (Val message) (lit "method") ;;
  if strict_eq_string method (lit "tools/list") then
    id <- member (Val message) (lit "id") ;;
    ret (result_envelope id
           (JObj [ (lit "tools", JArr (map descriptor initializeTools)) ]))
  else if strict_eq_string method (lit "tools/call") then
    params <- member (Val message) (lit "params") ;;
    name <- member params (lit "name") ;;
    args <- member params (lit "arguments") ;;
    match tools_get name with
    | None =>
        id <- member (Val message) (lit "id") ;;
        text <- template name ;;
        ret (error_envelope id method_not_found_code (lit "Tool not found: " ++ text))
    | Some tool =>
        match handler tool args with
        | Returned result =>
            id <- member (Val message) (lit "id") ;;
            ret (result_envelope id result)
        | Threw error =>
            id <- member (Val message) (lit "id") ;;
            ret (error_envelope id internal_error_code (cause error))
        end
    end
  else if strict_eq_string method (lit "initialize") then
    id <- member (Val message) (lit "id") ;;
    ret (result_envelope id initialize_result)
  else
    id <- member (Val message) (lit "id") ;;
    ret (error_envelope id method_not_found_code (lit "Method not found")).

(** The worker's entry point. *)
Inductive response_body : Type :=
| NoBody
| Text (text : jsstring)
| JsonBody (j : json).

Record Response : Type := { status : N; body : response_body }.

Definition parse_error_response : Response :=
  {| status := 400;
     body := JsonBody (JObj [ (lit "jsonrpc", JStr (lit "2.0"));
                              (lit "error", JObj [ (lit "code", JNum parse_error_code);
                                                   (lit "message", JStr (lit "Parse error")) ]) ]) |}.

Definition fetch (request : Request) : M Response :=
  if jsstring_eqb (req_method request) (lit "OPTIONS") then
    ret {| status := 200; body := NoBody |}
  else if jsstring_eqb (req_pathname request) (lit "/sse")
          && jsstring_eqb (req_method request) (lit "GET") then
    ret {| status := 200; body := Text (lit "SSE endpoint for MCP client connection") |}
  else if jsstring_eqb (req_method request) (lit "POST") then
    match req_json request with
    | Unparseable _ => ret parse_error_response
    | Parsed message =>
        try_catch
          (response <- handleRequest message ;;
           ret {| status := 200; body := JsonBody response |})
          (fun _ => ret parse_error_response)
    end
  else
    ret {| status := 200; body := Text (lit "Atlassian MCP Server") |}.

End Agent.

(** A response of the worker as the aggregator's client receives it: the
    status, and the body as [response.json()] parses what the worker
    serialised. *)
Inductive received : Response -> fetch_result -> Prop :=
| received_json status statusText j :
    received {| status := status; body := JsonBody j |}
             (Responded status statusText (Parsed (wire j)))
| received_text status statusText text e :
    received {| status := status; body := Text text |}
             (Responded status statusText (Unparseable e))
| received_empty status statusText e :
    received {| status := status; body := NoBody |}
             (Responded status statusText (Unparseable e)).

(** The network serves [url] with the worker: a call to [url] is answered
    by what [fetch] gives on a POST whose body parses to what the caller
    serialised. *)
Definition serves (number_to_string : float -> jsstring)
    (run_handler : jsstring -> value -> handler_outcome)
    (net : network) (url : jsstring) : Prop :=
  forall h c,
    call_url c = url ->
    exists response,
      fetch number_to_string run_handler (post (Parsed (wire (call_body c)))) []
      = (Normal response, [])
      /\ received response (net h c).

End Atlassian.

(** A network in which [url] is served by the Atlassian worker and every
    other URL by [others]. *)
Definition worker_net (number_to_string : float -> jsstring)
    (run_handler : jsstring -> value -> handler_outcome)
    (url : jsstring) (others : network) : network :=
  fun h c =>
    if jsstring_eqb (call_url c) url then
      match Atlassian.fetch number_to_string run_handler
              (post (Parsed (wire (call_body c)))) [] with
      | (Normal response, _) =>
          Responded (Atlassian.status response) (lit "OK")
            match Atlassian.body response with
            | Atlassian.JsonBody j => Parsed (wire j)
            | _ => Unparseable NotAnError
            end
      | (Abrupt _, _) => Rejected NotAnError
      end
    else others h c.

(** A handler that returns its arguments. *)
Definition echo_handler : jsstring -> value -> handler_outcome :=
  fun _ args => match args with Val j => Returned j | Undefined => Threw NotAnError end.

(** ** [parseLibraryId] of the existing server *)

(** [s.split('/')], for any one-code-unit separator: the pieces between
    the separators, the empty ones included. *)
Fixpoint split (sep : N) (s : jsstring) : list jsstring :=
  match s with
  | [] => [[]]
  | c :: rest =>
      if N.eqb c sep then [] :: split sep rest
      else
        match split sep rest with
        | first :: others => (c :: first) :: others
        | [] => [[c]]
        end
  end.

Definition slash : N := 47.

(** [parts.length > 1 ? parts[1] : parts[0]] on [libraryId.slice(1)
    .split('/')] when the id starts with a slash, the id itself otherwise. *)
Definition parseLibraryId (libraryId : jsstring) : jsstring :=
  if startsWith libraryId (lit "/") then
    let parts := split slash (tl libraryId) in
    if (1 <? List.length parts)%nat then nth 1 parts [] else nth 0 parts []
  else libraryId.

(** [`/${libraryName}`] and [`/${owner}/${name}`], the ids
    [resolveLibraryId] builds. *)
Definition library_id (libraryName : jsstring) : jsstring := lit "/" ++ libraryName.
Definition repository_id (owner name : jsstring) : jsstring :=
  lit "/" ++ owner ++ lit "/" ++ name.

(** Decide the tests of [message.method] against the literals. *)
Ltac decide_method :=
  repeat match goal with
  | H : has_method ?m _ |- context [field ?m (lit "method")] =>
      unfold has_method in H; rewrite H
  | |- context [strict_eq_string (Val ?v) ?s] =>
      let b := eval vm_compute in (strict_eq_string (Val v) s) in
      change (strict_eq_string (Val v) s) with b
  end; cbv beta iota.

(** Decide the comparisons of two literals. *)
Ltac decide_literals :=
  repeat match goal with
  | |- context [jsstring_eqb (lit ?a) (lit ?b)] =>
      let v := eval vm_compute in (jsstring_eqb (lit a) (lit b)) in
      change (jsstring_eqb (lit a) (lit b)) with v
  end.

(** ** Basic facts *)

Lemma jsstring_eqb_eq (s t : jsstring) : jsstring_eqb s t = true <-> s = t.
Proof.
  revert t; induction s as [|c s IH]; intros [|d t]; simpl; split;
    try discriminate; try reflexivity.
  - intros H. apply andb_true_iff in H as [Hc Hs].
    apply N.eqb_eq in Hc. apply IH in Hs. congruence.
  - intros H. injection H as -> ->. rewrite N.eqb_refl. simpl. now apply IH.
Qed.

Lemma jsstring_eqb_refl (s : jsstring) : jsstring_eqb s s = true.
Proof. now apply jsstring_eqb_eq. Qed.

Lemma startsWith_has_prefix (s p : jsstring) :
  startsWith s p = true <-> has_prefix p s.
Proof.
  revert s; induction p as [|d p IH]; intros s; simpl.
  - split; [intros _; now exists s | reflexivity].
  - destruct s as [|c s].
    + split; [discriminate | intros [rest H]; discriminate].
    + rewrite andb_true_iff, N.eqb_eq, IH. split.
      * intros [-> [rest ->]]. now exists rest.
      * intros [rest H]. injection H as -> ->. split; [reflexivity | now exists rest].
Qed.

Lemma response_ok_spec (status : N) :
  response_ok status = true <-> (200 <= status <= 299)%N.
Proof.
  unfold response_ok. rewrite andb_true_iff, !N.leb_le. tauto.
Qed.

Lemma response_not_ok_spec (status : N) :
  response_ok status = false <-> (status < 200 \/ 299 < status)%N.
Proof.
  unfold response_ok. rewrite andb_false_iff, !N.leb_gt. tauto.
Qed.

Lemma member_of_value (j : json) (key : jsstring) (tr : list call) :
  j <> JNull -> member (Val j) key tr = (Normal (field j key), tr).
Proof. destruct j; intros H; try reflexivity. now elim H. Qed.

Lemma id_of_error_envelope id code message :
  id_of (error_envelope id code message) = id.
Proof. destruct id; reflexivity. Qed.

Lemma error_of_error_envelope id code message :
  field (error_envelope id code message) (lit "error")
  = Val (JObj [ (lit "code", JNum code); (lit "message", JStr message) ]).
Proof. destruct id; reflexivity. Qed.

Lemma id_of_result_envelope id result :
  id_of (result_envelope id result) = id.
Proof. destruct id; reflexivity. Qed.

(** Every outcome of a call is a delivery or a failure with its cause. *)
Lemma attempt_delivered (r : fetch_result) (j : json) :
  attempt r = inl j <-> delivered r j.
Proof.
  split.
  - destruct r as [e | status statusText [j' | e]]; simpl; try discriminate;
      destruct (response_ok status) eqn:Hok; simpl; try discriminate.
    intros H. injection H as <-. exists status, statusText.
    split; [now apply response_ok_spec | reflexivity].
  - intros (status & statusText & Hok & ->). simpl.
    apply response_ok_spec in Hok. now rewrite Hok.
Qed.

Lemma attempt_failure (r : fetch_result) (why : jsstring) :
  failure_cause r why -> exists e, attempt r = inr e /\ cause e = why.
Proof.
  intros H. destruct H as [m | | st txt b Hst | st txt m Hst | st txt Hst]; simpl.
  - now exists (ErrorInstance m).
  - now exists NotAnError.
  - apply response_not_ok_spec in Hst. rewrite Hst. simpl. eexists. split; reflexivity.
  - apply response_ok_spec in Hst. rewrite Hst. simpl. now exists (ErrorInstance m).
  - apply response_ok_spec in Hst. rewrite Hst. simpl. now exists NotAnError.
Qed.

Lemma failure_or_delivered (r : fetch_result) :
  (exists why, failure_cause r why) \/ (exists j, delivered r j).
Proof.
  destruct r as [[m|] | status statusText body].
  - left. eexists. constructor.
  - left. eexists. constructor.
  - destruct (response_ok status) eqn:Hok.
    + apply response_ok_spec in Hok. destruct body as [j | [m|]].
      * right. exists j, status, statusText. now split.
      * left. eexists. now constructor.
      * left. eexists. now constructor.
    + apply response_not_ok_spec in Hok. left. eexists. now constructor.
Qed.

(** What [forwardRequest] does, by the outcome of the attempt. *)
Lemma forwardRequest_run net (serverUrl : jsstring) (message : json) (tr : list call) :
  message <> JNull ->
  forwardRequest net serverUrl message tr =
    (Normal (match attempt (net tr (Call serverUrl message)) with
             | inl response => response
             | inr error =>
                 error_envelope (id_of message) internal_error_code
                   (lit "Failed to contact server: " ++ cause error)
             end),
     tr ++ [Call serverUrl message]).
Proof.
  intros Hm. unfold forwardRequest, bind, fetch_post.
  destruct (attempt _); [reflexivity |].
  now rewrite member_of_value.
Qed.

(** ** How the operations run *)

Lemma strict_eq_string_true (v : value) (s : jsstring) :
  strict_eq_string v s = true <-> v = Val (JStr s).
Proof.
  destruct v as [|[]]; simpl; try (split; discriminate).
  rewrite jsstring_eqb_eq. split; [now intros -> | now intros [= ->]].
Qed.

Lemma strict_eq_string_false (v : value) (s : jsstring) :
  strict_eq_string v s = false <-> v <> Val (JStr s).
Proof.
  rewrite <- strict_eq_string_true. destruct (strict_eq_string v s); split;
    congruence.
Qed.

Lemma has_method_not_null (message : json) (name : string) :
  has_method message name -> message <> JNull.
Proof. intros H ->. discriminate H. Qed.

Lemma forwardRequest_answer net (serverUrl : jsstring) (message : json) (tr : list call) :
  message <> JNull ->
  forwardRequest net serverUrl message tr =
    (Normal (answer message (net tr (Call serverUrl message))),
     tr ++ [Call serverUrl message]).
Proof. apply forwardRequest_run. Qed.

Lemma well_formed_error_envelope id code message :
  well_formed (error_envelope id code message).
Proof.
  split; [destruct id; reflexivity |]. right.
  rewrite error_of_error_envelope. discriminate.
Qed.

Lemma well_formed_result_envelope id result :
  well_formed (result_envelope id result).
Proof.
  split; [destruct id; reflexivity |]. left. destruct id; discriminate.
Qed.

Lemma answer_failed (message : json) (r : fetch_result) (why : jsstring) :
  failure_cause r why ->
  answer message r = error_envelope (id_of message) internal_error_code
                       (lit "Failed to contact server: " ++ why).
Proof.
  intros H. apply attempt_failure in H as (e & He & <-).
  unfold answer. now rewrite He.
Qed.

Lemma answer_delivered (message : json) (r : fetch_result) (j : json) :
  delivered r j -> answer message r = j.
Proof.
  intros H. apply attempt_delivered in H. unfold answer. now rewrite H.
Qed.

Lemma tools_member_error_envelope id code message :
  tools_member (error_envelope id code message) = Undefined.
Proof. destruct id; reflexivity. Qed.

Lemma pushed_contributes engine (r : fetch_result) (j : json) (items : list json) :
  delivered r j -> iterates (tools_member j) items ->
  contributes engine r (pushed engine items).
Proof.
  intros Hd Hi. unfold pushed.
  destruct (List.length items <=? max_arguments engine)%nat eqn:E.
  - apply Nat.leb_le in E. now apply contributes_items with j.
  - apply Nat.leb_gt in E. now apply contributes_oversized with j items.
Qed.

Lemma contribution_contributes engine (message : json) (r : fetch_result) :
  contributes engine r (contribution engine (answer message r)).
Proof.
  destruct (failure_or_delivered r) as [[why Hwhy] | [j Hj]].
  - rewrite (answer_failed message Hwhy). unfold contribution.
    rewrite tools_member_error_envelope. now apply contributes_failed with why.
  - rewrite (answer_delivered message Hj). unfold contribution.
    destruct (tools_member j) as [|[]] eqn:Ht;
      try (apply contributes_nothing with j;
           [assumption | rewrite Ht; intros items Hi; inversion Hi]).
    + apply pushed_contributes with j; [assumption |]. rewrite Ht. constructor.
    + apply pushed_contributes with j; [assumption |]. rewrite Ht. constructor.
Qed.

Lemma tools_list_request_not_null (id : float) : tools_list_request id <> JNull.
Proof. discriminate. Qed.

(** One [try] block of [getAllTools]: one call, and the tools grow by the
    contribution of the answer; nothing escapes the [catch]. *)
Lemma gather_run engine net (serverUrl : jsstring) (id : float) (tools : list json)
    (tr : list call) :
  let c := Call serverUrl (tools_list_request id) in
  gather engine net serverUrl id tools tr
  = (Normal (tools ++ contribution engine (answer (tools_list_request id) (net tr c))),
     tr ++ [c]).
Proof.
  intros c. unfold gather, try_catch, bind.
  rewrite forwardRequest_answer by apply tools_list_request_not_null.
  fold c. set (response := answer _ _). unfold contribution, tools_member.
  destruct response as [ | b | x | s | elems | props ]; simpl;
    try (now rewrite app_nil_r).
  destruct (lookup (lit "result") props) as [|result]; simpl;
    [now rewrite app_nil_r |].
  destruct result as [ | b | x | s | elems | rprops ]; simpl;
    try (now rewrite app_nil_r).
  destruct (lookup (lit "tools") rprops) as [|[ | b | x | s | elems | tprops ]];
    simpl; try (now rewrite app_nil_r).
  - destruct b; simpl; now rewrite app_nil_r.
  - destruct (negb (PrimFloat.eqb x 0) && PrimFloat.eqb x x); simpl;
      now rewrite app_nil_r.
  - destruct s as [|u s]; [simpl; now rewrite app_nil_r |].
    cbn [truthy]. unfold arguments, pushed.
    destruct (List.length (map JStr (code_points (u :: s))) <=? max_arguments engine)%nat;
      [reflexivity | simpl; now rewrite app_nil_r].
  - unfold arguments, pushed.
    destruct (List.length elems <=? max_arguments engine)%nat;
      [reflexivity | simpl; now rewrite app_nil_r].
Qed.

Lemma getAllTools_run engine net (this : McpAggregator) (tr : list call) :
  let c1 := Call (existingServerUrl this) (tools_list_request 1) in
  let c2 := Call (atlassianServerUrl this) (tools_list_request 2) in
  getAllTools engine net this tr
  = (Normal (contribution engine (answer (tools_list_request 1) (net tr c1))
             ++ contribution engine (answer (tools_list_request 2) (net (tr ++ [c1]) c2))),
     tr ++ [c1; c2]).
Proof.
  intros c1 c2. unfold getAllTools, bind. rewrite !gather_run. simpl.
  unfold ret. fold c1 c2. now rewrite <- app_assoc.
Qed.

Lemma optional_member_field (v : value) (key : jsstring) (tr : list call) :
  optional_member v key tr
  = (Normal (match v with Val j => field j key | Undefined => Undefined end), tr).
Proof. destruct v as [|[]]; reflexivity. Qed.

Lemma handleRequest_initialize engine net this (message : json) (tr : list call) :
  has_method message "initialize" ->
  handleRequest engine net this message tr
  = (Normal (result_envelope (id_of message) initialize_result), tr).
Proof.
  intros Hm. pose proof (has_method_not_null Hm) as Hn.
  unfold handleRequest, bind. rewrite member_of_value by assumption.
  cbv beta iota. decide_method. now rewrite member_of_value.
Qed.

Lemma handleRequest_tools_list engine net this (message : json) (tr : list call) :
  has_method message "tools/list" ->
  let c1 := Call (existingServerUrl this) (tools_list_request 1) in
  let c2 := Call (atlassianServerUrl this) (tools_list_request 2) in
  handleRequest engine net this message tr
  = (Normal (result_envelope (id_of message)
               (JObj [ (lit "tools",
                        JArr (contribution engine (answer (tools_list_request 1) (net tr c1))
                              ++ contribution engine (answer (tools_list_request 2)
                                                 (net (tr ++ [c1]) c2)))) ])),
     tr ++ [c1; c2]).
Proof.
  intros Hm c1 c2. pose proof (has_method_not_null Hm) as Hn.
  unfold handleRequest, bind. rewrite member_of_value by assumption.
  cbv beta iota. decide_method. rewrite getAllTools_run. cbv beta iota zeta.
  now rewrite member_of_value.
Qed.

Lemma handleRequest_tools_call engine net this (message : json) (tr : list call) :
  has_method message "tools/call" ->
  handleRequest engine net this message tr
  = if negb (truthy (tool_name_of message)) then
      (Normal (error_envelope (id_of message) invalid_params_code
                 (lit "Missing tool name in parameters")), tr)
    else
      match tool_name_of message with
      | Val (JStr n) =>
          forwardRequest net
            (if isAtlassianTool n then atlassianServerUrl this
             else existingServerUrl this) message tr
      | _ => (Abrupt (NotAFunction (lit "startsWith")), tr)
      end.
Proof.
  intros Hm. pose proof (has_method_not_null Hm) as Hn.
  unfold handleRequest, bind. rewrite member_of_value by assumption.
  cbv beta iota. decide_method. rewrite member_of_value by assumption.
  cbv beta iota. rewrite optional_member_field. cbv beta iota. fold (tool_name_of message).
  destruct (truthy (tool_name_of message)) eqn:Ht; unfold negb; cbv beta iota.
  - destruct (tool_name_of message) as [|[]]; reflexivity.
  - now rewrite member_of_value.
Qed.

Lemma handleRequest_other engine net this (message : json) (tr : list call) :
  message <> JNull ->
  ~ has_method message "initialize" ->
  ~ has_method message "tools/list" ->
  ~ has_method message "tools/call" ->
  let c1 := Call (existingServerUrl this) message in
  let c2 := Call (atlassianServerUrl this) message in
  let first := answer message (net tr c1) in
  handleRequest engine net this message tr
  = match first with
    | JNull => (Abrupt (ReadOfNullish (lit "error")), tr ++ [c1])
    | _ =>
        if truthy (field first (lit "error"))
        then (Normal (answer message (net (tr ++ [c1]) c2)), tr ++ [c1; c2])
        else (Normal first, tr ++ [c1])
    end.
Proof.
  intros Hn H1 H2 H3 c1 c2 first.
  apply strict_eq_string_false in H1, H2, H3.
  unfold handleRequest, bind. rewrite member_of_value by assumption.
  cbv beta iota. rewrite H1, H2, H3. rewrite forwardRequest_answer by assumption.
  fold c1 first. cbv beta iota. destruct first eqn:Hf; try reflexivity.
  rewrite member_of_value by discriminate.
  destruct (truthy _); simpl; [| reflexivity].
  rewrite forwardRequest_answer by assumption. now rewrite <- app_assoc.
Qed.

(** ** The backend client *)

(** C1.  On an envelope, [forwardRequest] completes normally whatever the
    network does, after exactly one outbound call carrying the envelope.
    When the call fails (the fetch rejects, the status is outside 200-299,
    or the body does not parse) the answer is an error envelope with the
    id of the input, code -32603 and the message "Failed to contact
    server: " followed by the cause. *)
Theorem forwardRequest_never_raises net (serverUrl : jsstring) (message : json)
    (tr : list call) :
  message <> JNull ->
  exists response,
    forwardRequest net serverUrl message tr
      = (Normal response, tr ++ [Call serverUrl message])
    /\ forall why,
         failure_cause (net tr (Call serverUrl message)) why ->
         response = error_envelope (id_of message) internal_error_code
                      (lit "Failed to contact server: " ++ why)
         /\ id_of response = id_of message
         /\ error_code_of response = Val (JNum (-32603)%float)
         /\ error_message_of response
            = Val (JStr (lit "Failed to contact server: " ++ why)).
Proof.
  intros Hm. eexists. split; [now apply forwardRequest_run |].
  intros why Hwhy. apply attempt_failure in Hwhy as (e & -> & <-).
  split; [reflexivity |]. split; [apply id_of_error_envelope |].
  unfold error_code_of, error_message_of. rewrite error_of_error_envelope.
  split; reflexivity.
Qed.

Lemma forwardRequest_never_raises_witness :
  request_envelope "ping" Undefined <> JNull
  /\ exists response,
       forwardRequest net_down default_existing_url
         (request_envelope "ping" Undefined) []
       = (Normal response,
          [Call default_existing_url (request_envelope "ping" Undefined)])
       /\ id_of response = Val (JNum 7)
       /\ error_code_of response = Val (JNum (-32603)%float).
Proof.
  split; [discriminate |].
  destruct (@forwardRequest_never_raises net_down default_existing_url
              (request_envelope "ping" Undefined) [])
    as (response & Hrun & Hfail); [discriminate |].
  exists response. split; [exact Hrun |].
  destruct (Hfail (lit "fetch failed")) as (_ & Hid & Hcode & _);
    [constructor |].
  split; [exact Hid | exact Hcode].
Defined.

(** ** The tool classifier *)

Lemma isAtlassianTool_prefixes (n : jsstring) :
  isAtlassianTool n = true
  <-> has_prefix (lit "jira_") n \/ has_prefix (lit "confluence_") n
      \/ has_prefix (lit "atlassian_") n.
Proof.
  unfold isAtlassianTool, atlassianPrefixes. cbn [existsb].
  rewrite !orb_true_iff, !startsWith_has_prefix. intuition discriminate.
Qed.

Lemma handleRequest_named engine net this (message : json) (n : jsstring) (tr : list call) :
  has_method message "tools/call" ->
  tool_name_of message = Val (JStr n) ->
  n <> [] ->
  let target := if isAtlassianTool n then atlassianServerUrl this
                else existingServerUrl this in
  handleRequest engine net this message tr = forwardRequest net target message tr
  /\ handleRequest engine net this message tr
     = (Normal (answer message (net tr (Call target message))),
        tr ++ [Call target message]).
Proof.
  intros Hm Hname Hn target.
  rewrite handleRequest_tools_call by assumption. rewrite Hname.
  destruct n as [|c n]; [now elim Hn |]. cbn [truthy negb].
  split; [reflexivity |].
  apply forwardRequest_answer. eapply has_method_not_null; eassumption.
Qed.

(** C2.  A tool name belongs to the Atlassian server exactly when it starts
    with "jira_", "confluence_" or "atlassian_" (the prefixes are tried in
    this order) and to the existing server otherwise; a tools/call with a
    name makes one call, to the server the name belongs to; a call of
    "jira_search" goes to the Atlassian server and to no other. *)
Theorem tool_classification engine :
  (forall n,
     isAtlassianTool n = true
     <-> has_prefix (lit "jira_") n \/ has_prefix (lit "confluence_") n
         \/ has_prefix (lit "atlassian_") n)
  /\ (forall net this message n tr,
        has_method message "tools/call" ->
        tool_name_of message = Val (JStr n) ->
        n <> [] ->
        exists response,
          handleRequest engine net this message tr
          = (Normal response,
             tr ++ [Call (if isAtlassianTool n then atlassianServerUrl this
                          else existingServerUrl this) message]))
  /\ (forall net this message tr,
        has_method message "tools/call" ->
        tool_name_of message = Val (JStr (lit "jira_search")) ->
        exists response calls,
          handleRequest engine net this message tr = (Normal response, tr ++ calls)
          /\ calls = [Call (atlassianServerUrl this) message]
          /\ (existingServerUrl this <> atlassianServerUrl this ->
              ~ In (existingServerUrl this) (map call_url calls))).
Proof.
  split; [exact isAtlassianTool_prefixes |]. split.
  - intros net this message n tr Hm Hname Hn.
    eexists. now apply handleRequest_named.
  - intros net this message tr Hm Hname.
    destruct (@handleRequest_named engine net this message (lit "jira_search") tr)
      as [_ Hrun]; try assumption; [discriminate |].
    do 2 eexists. split; [exact Hrun |]. split; [reflexivity |].
    intros Hdistinct [Hin | []]. now apply Hdistinct.
Qed.

Lemma tool_classification_witness :
  has_method (call_of (JStr (lit "jira_search"))) "tools/call"
  /\ tool_name_of (call_of (JStr (lit "jira_search"))) = Val (JStr (lit "jira_search"))
  /\ exists response,
       handleRequest sample_engine net_down sample_aggregator
         (call_of (JStr (lit "jira_search"))) []
       = (Normal response,
          [Call default_atlassian_url (call_of (JStr (lit "jira_search")))]).
Proof.
  split; [reflexivity |]. split; [reflexivity |].
  destruct (tool_classification sample_engine) as (_ & _ & Hjira).
  destruct (Hjira net_down sample_aggregator
              (call_of (JStr (lit "jira_search"))) [])
    as (response & calls & Hrun & -> & _); [reflexivity | reflexivity |].
  exists response. exact Hrun.
Defined.

(** ** tools/list: the merged catalogue *)

Lemma delivered_not_failed (r : fetch_result) (j : json) (why : jsstring) :
  delivered r j -> failure_cause r why -> False.
Proof.
  intros (status & statusText & Hok & ->) Hfail.
  inversion Hfail; subst. lia.
Qed.

Lemma delivered_unique (r : fetch_result) (j j' : json) :
  delivered r j -> delivered r j' -> j = j'.
Proof.
  intros (s & t & _ & ->) (s' & t' & _ & H). now injection H.
Qed.

Lemma iterates_functional (v : value) (items items' : list json) :
  iterates v items -> iterates v items' -> items = items'.
Proof. intros H H'. destruct H; inversion H'; reflexivity. Qed.

(** A backend's outcome fixes what it contributes. *)
Lemma contributes_functional engine (r : fetch_result) (l l' : list json) :
  contributes engine r l -> contributes engine r l' -> l = l'.
Proof.
  intros H H'.
  destruct H as [r why Hf | r j items Hd Hi Hle | r j items Hd Hi Hgt | r j Hd Hn];
    destruct H' as [r why' Hf' | r j' items' Hd' Hi' Hle' | r j' items' Hd' Hi' Hgt'
                   | r j' Hd' Hn'];
    try reflexivity;
    try (exfalso; eapply delivered_not_failed; eassumption);
    pose proof (delivered_unique Hd Hd') as <-.
  - exact (iterates_functional Hi Hi').
  - pose proof (iterates_functional Hi Hi') as <-. lia.
  - exfalso. exact (Hn' _ Hi).
  - pose proof (iterates_functional Hi Hi') as <-. lia.
  - exfalso. exact (Hn _ Hi').
Qed.

(** The merged catalogue of a tools/list, as the code builds it: what the
    existing server contributes followed by what the Atlassian server
    contributes, each asked once and in this order. *)
Lemma tools_list_merge engine net this (message : json) (tr : list call) :
  has_method message "tools/list" ->
  let c1 := Call (existingServerUrl this) (tools_list_request 1) in
  let c2 := Call (atlassianServerUrl this) (tools_list_request 2) in
  exists from_existing from_atlassian,
    handleRequest engine net this message tr
    = (Normal (result_envelope (id_of message)
                 (JObj [ (lit "tools", JArr (from_existing ++ from_atlassian)) ])),
       tr ++ [c1; c2])
    /\ contributes engine (net tr c1) from_existing
    /\ contributes engine (net (tr ++ [c1]) c2) from_atlassian.
Proof.
  intros Hm c1 c2. do 2 eexists. split.
  - now apply handleRequest_tools_list.
  - split; apply contribution_contributes.
Qed.

(** C3, at the input where the code departs from it.  The existing server
    answers [{"jsonrpc":"2.0","id":1,"result":{"tools":"ab"}}], which
    carries no [result.tools] array, and the Atlassian server answers with
    one tool.  On an engine that takes two arguments or more the merged
    catalogue is "a", "b" and the tool, not the tool alone as the
    specification has it: the string passes the truthiness guard and is
    spread. *)
Theorem tools_list_spreads_string engine :
  (2 <= max_arguments engine)%nat ->
  handleRequest engine
    (net_of (ok (listing 1 (JStr (lit "ab")))) (ok (listing 2 (JArr [jira_search_tool]))))
    sample_aggregator (request_envelope "tools/list" Undefined) []
  = (Normal (result_envelope (Val (JNum 7))
               (JObj [ (lit "tools",
                        JArr [JStr (lit "a"); JStr (lit "b"); jira_search_tool]) ])),
     [Call default_existing_url (tools_list_request 1);
      Call default_atlassian_url (tools_list_request 2)])
  /\ ~ merge_as_claimed engine
         (net_of (ok (listing 1 (JStr (lit "ab"))))
                 (ok (listing 2 (JArr [jira_search_tool]))))
         sample_aggregator (request_envelope "tools/list" Undefined).
Proof.
  intros Hlimit.
  assert (Hrun : handleRequest engine
            (net_of (ok (listing 1 (JStr (lit "ab"))))
                    (ok (listing 2 (JArr [jira_search_tool]))))
            sample_aggregator (request_envelope "tools/list" Undefined) []
          = (Normal (result_envelope (Val (JNum 7))
                       (JObj [ (lit "tools",
                                JArr [JStr (lit "a"); JStr (lit "b"); jira_search_tool]) ])),
             [Call default_existing_url (tools_list_request 1);
              Call default_atlassian_url (tools_list_request 2)])).
  { rewrite handleRequest_tools_list by reflexivity.
    cbv zeta. cbn [app].
    change (contribution engine _ ++ contribution engine _)
      with (pushed engine [JStr (lit "a"); JStr (lit "b")]
            ++ pushed engine [jira_search_tool]).
    unfold pushed. cbn [List.length].
    assert (H2 : (2 <=? max_arguments engine)%nat = true) by now apply Nat.leb_le.
    assert (H1 : (1 <=? max_arguments engine)%nat = true) by (apply Nat.leb_le; lia).
    rewrite H2, H1. reflexivity. }
  split; [exact Hrun |].
  unfold merge_as_claimed. rewrite Hrun. intros H.
  vm_compute in H. discriminate H.
Qed.

Lemma tools_list_spreads_string_witness :
  (2 <= max_arguments sample_engine)%nat
  /\ handleRequest sample_engine
       (net_of (ok (listing 1 (JStr (lit "ab")))) (ok (listing 2 (JArr [jira_search_tool]))))
       sample_aggregator (request_envelope "tools/list" Undefined) []
     = (Normal (result_envelope (Val (JNum 7))
                  (JObj [ (lit "tools",
                           JArr [JStr (lit "a"); JStr (lit "b"); jira_search_tool]) ])),
        [Call default_existing_url (tools_list_request 1);
         Call default_atlassian_url (tools_list_request 2)]).
Proof.
  assert (Hlimit : (2 <= max_arguments sample_engine)%nat) by (simpl; lia).
  split; [exact Hlimit |].
  exact (proj1 (tools_list_spreads_string sample_engine Hlimit)).
Defined.

(** C4.  For a tools/list, whatever the two backends do, the answer is a
    result envelope with the id of the inbound envelope and no [error]
    member; the two internal requests, with ids 1 and 2, are all that is
    sent; when both calls fail the list of tools is empty. *)
Theorem tools_list_always_result engine net this (message : json) (tr : list call) :
  has_method message "tools/list" ->
  let c1 := Call (existingServerUrl this) (tools_list_request 1) in
  let c2 := Call (atlassianServerUrl this) (tools_list_request 2) in
  exists response tools,
    handleRequest engine net this message tr = (Normal response, tr ++ [c1; c2])
    /\ response = result_envelope (id_of message) (JObj [ (lit "tools", JArr tools) ])
    /\ id_of response = id_of message
    /\ field response (lit "error") = Undefined
    /\ field response (lit "result") = Val (JObj [ (lit "tools", JArr tools) ])
    /\ id_of (call_body c1) = Val (JNum 1)
    /\ id_of (call_body c2) = Val (JNum 2)
    /\ ((exists why, failure_cause (net tr c1) why) ->
        (exists why, failure_cause (net (tr ++ [c1]) c2) why) ->
        tools = []).
Proof.
  intros Hm c1 c2. do 2 eexists.
  split; [now apply handleRequest_tools_list |].
  split; [reflexivity |].
  split; [apply id_of_result_envelope |].
  split; [destruct (id_of message); reflexivity |].
  split; [destruct (id_of message); reflexivity |].
  split; [reflexivity |]. split; [reflexivity |].
  intros [why1 H1] [why2 H2].
  rewrite (answer_failed _ H1), (answer_failed _ H2).
  unfold contribution. now rewrite !tools_member_error_envelope.
Qed.

Lemma tools_list_always_result_witness :
  has_method (request_envelope "tools/list" Undefined) "tools/list"
  /\ handleRequest sample_engine net_down sample_aggregator
       (request_envelope "tools/list" Undefined) []
     = (Normal (result_envelope (Val (JNum 7)) (JObj [ (lit "tools", JArr []) ])),
        [Call default_existing_url (tools_list_request 1);
         Call default_atlassian_url (tools_list_request 2)]).
Proof.
  split; [reflexivity |].
  destruct (@tools_list_always_result sample_engine net_down sample_aggregator
              (request_envelope "tools/list" Undefined) [])
    as (response & tools & Hrun & -> & _ & _ & _ & _ & _ & Hdown);
    [reflexivity |].
  rewrite Hdown in Hrun.
  - exact Hrun.
  - eexists. constructor.
  - eexists. constructor.
Defined.

(** ** tools/call *)

Lemma handleRequest_falsy_name engine net this (message : json) (tr : list call) :
  has_method message "tools/call" ->
  truthy (tool_name_of message) = false ->
  exists response,
    handleRequest engine net this message tr = (Normal response, tr)
    /\ response = error_envelope (id_of message) invalid_params_code
                    (lit "Missing tool name in parameters")
    /\ id_of response = id_of message
    /\ error_code_of response = Val (JNum (-32602)%float)
    /\ error_message_of response
       = Val (JStr (lit "Missing tool name in parameters")).
Proof.
  intros Hm Hfalsy. eexists. split.
  - rewrite handleRequest_tools_call by assumption. now rewrite Hfalsy.
  - split; [reflexivity |]. split; [apply id_of_error_envelope |].
    unfold error_code_of, error_message_of. rewrite error_of_error_envelope.
    split; reflexivity.
Qed.

(** C5.  A tools/call whose params carry no name is answered with an error
    envelope: code -32602, the message "Missing tool name in parameters",
    the id of the inbound envelope; the trace of outbound calls is left as
    it was, so no backend is contacted. *)
Theorem tools_call_without_name engine net this (message : json) (tr : list call) :
  has_method message "tools/call" ->
  tool_name_of message = Undefined ->
  exists response,
    handleRequest engine net this message tr = (Normal response, tr)
    /\ response = error_envelope (id_of message) invalid_params_code
                    (lit "Missing tool name in parameters")
    /\ id_of response = id_of message
    /\ error_code_of response = Val (JNum (-32602)%float)
    /\ error_message_of response
       = Val (JStr (lit "Missing tool name in parameters")).
Proof.
  intros Hm Hname. apply handleRequest_falsy_name; [assumption |].
  now rewrite Hname.
Qed.

Lemma tools_call_without_name_witness :
  has_method (request_envelope "tools/call" (Val (JObj []))) "tools/call"
  /\ tool_name_of (request_envelope "tools/call" (Val (JObj []))) = Undefined
  /\ exists response,
       handleRequest sample_engine net_down sample_aggregator
         (request_envelope "tools/call" (Val (JObj []))) []
       = (Normal response, [])
       /\ id_of response = Val (JNum 7)
       /\ error_code_of response = Val (JNum (-32602)%float).
Proof.
  split; [reflexivity |]. split; [reflexivity |].
  destruct (@tools_call_without_name sample_engine net_down sample_aggregator
              (request_envelope "tools/call" (Val (JObj []))) [])
    as (response & Hrun & _ & Hid & Hcode & _); [reflexivity | reflexivity |].
  exists response. split; [exact Hrun |]. split; [exact Hid | exact Hcode].
Defined.

(** C10.  A tools/call whose [params.name] is the empty string is answered
    like one without a name: the invalid-params error envelope, and no
    outbound call. *)
Theorem tools_call_with_empty_name engine net this (message : json) (tr : list call) :
  has_method message "tools/call" ->
  tool_name_of message = Val (JStr []) ->
  exists response,
    handleRequest engine net this message tr = (Normal response, tr)
    /\ response = error_envelope (id_of message) invalid_params_code
                    (lit "Missing tool name in parameters")
    /\ id_of response = id_of message
    /\ error_code_of response = Val (JNum (-32602)%float)
    /\ error_message_of response
       = Val (JStr (lit "Missing tool name in parameters")).
Proof.
  intros Hm Hname. apply handleRequest_falsy_name; [assumption |].
  now rewrite Hname.
Qed.

Lemma tools_call_with_empty_name_witness :
  has_method (call_of (JStr [])) "tools/call"
  /\ tool_name_of (call_of (JStr [])) = Val (JStr [])
  /\ exists response,
       handleRequest sample_engine (net_of (ok pong) (ok pong)) sample_aggregator
         (call_of (JStr [])) []
       = (Normal response, [])
       /\ id_of response = Val (JNum 7)
       /\ error_code_of response = Val (JNum (-32602)%float).
Proof.
  split; [reflexivity |]. split; [reflexivity |].
  destruct (@tools_call_with_empty_name sample_engine (net_of (ok pong) (ok pong))
              sample_aggregator (call_of (JStr [])) [])
    as (response & Hrun & _ & Hid & Hcode & _); [reflexivity | reflexivity |].
  exists response. split; [exact Hrun |]. split; [exact Hid | exact Hcode].
Defined.

(** C6, as the code has it.  A tools/call whose [params.name] is a
    non-empty string is forwarded as it came, in one call, to the server
    the name belongs to, and what [forwardRequest] hands back is returned
    as it is: the body of a delivered answer, whatever it holds, an [error]
    included. *)
Theorem tools_call_dispatch engine net this (message : json) (n : jsstring) (tr : list call) :
  has_method message "tools/call" ->
  tool_name_of message = Val (JStr n) ->
  n <> [] ->
  let target := if isAtlassianTool n then atlassianServerUrl this
                else existingServerUrl this in
  handleRequest engine net this message tr = forwardRequest net target message tr
  /\ exists response,
       handleRequest engine net this message tr
       = (Normal response, tr ++ [Call target message])
       /\ forall j, delivered (net tr (Call target message)) j -> response = j.
Proof.
  intros Hm Hname Hn target.
  destruct (@handleRequest_named engine net this message n tr Hm Hname Hn)
    as [Hsame Hrun].
  split; [exact Hsame |]. eexists. split; [exact Hrun |].
  intros j Hj. now apply answer_delivered.
Qed.

Lemma tools_call_dispatch_witness :
  has_method (call_of (JStr (lit "confluence_search"))) "tools/call"
  /\ tool_name_of (call_of (JStr (lit "confluence_search")))
     = Val (JStr (lit "confluence_search"))
  /\ lit "confluence_search" <> []
  /\ handleRequest sample_engine (net_of (ok pong) (ok zero_error_answer)) sample_aggregator
       (call_of (JStr (lit "confluence_search"))) []
     = (Normal zero_error_answer,
        [Call default_atlassian_url (call_of (JStr (lit "confluence_search")))]).
Proof.
  split; [reflexivity |]. split; [reflexivity |]. split; [discriminate |].
  destruct (@tools_call_dispatch sample_engine (net_of (ok pong) (ok zero_error_answer))
              sample_aggregator (call_of (JStr (lit "confluence_search")))
              (lit "confluence_search") [])
    as (_ & response & Hrun & Hverbatim);
    [reflexivity | reflexivity | discriminate |].
  rewrite (Hverbatim zero_error_answer) in Hrun.
  - exact Hrun.
  - exists 200%N, (lit "OK"). split; [lia | reflexivity].
Defined.

(** C6, as the specification words it, fails: the params of
    [{"jsonrpc":"2.0","id":7,"method":"tools/call","params":{"name":""}}]
    carry a name, and nothing is forwarded. *)
Lemma tools_call_dispatch_counterexample :
  ~ dispatch_as_claimed sample_engine (net_of (ok pong) (ok pong)) sample_aggregator
      (call_of (JStr [])).
Proof.
  intros H. destruct (H (JStr []) eq_refl) as (target & _ & Hrun).
  vm_compute in Hrun. discriminate Hrun.
Qed.

(** ** Any other method: the fallback chain *)

(** C7, as the code has it.  An envelope whose method is none of
    initialize, tools/list and tools/call (or that has no method) is first
    forwarded to the existing server.  When that answer is not the JSON
    value [null]: if its [error] member is missing or falsy ([null],
    [false], 0, NaN, the empty string) the answer is returned and nothing
    else is called; if its [error] member is truthy the same envelope is
    forwarded to the Atlassian server and that second answer, whatever it
    is, is returned; there is no third call. *)
Theorem fallback_chain engine net this (message : json) (tr : list call) :
  message <> JNull ->
  ~ has_method message "initialize" ->
  ~ has_method message "tools/list" ->
  ~ has_method message "tools/call" ->
  let c1 := Call (existingServerUrl this) message in
  let c2 := Call (atlassianServerUrl this) message in
  let first := answer message (net tr c1) in
  first <> JNull ->
  (field first (lit "error") = Undefined ->
   handleRequest engine net this message tr = (Normal first, tr ++ [c1]))
  /\ (truthy (field first (lit "error")) = false ->
      handleRequest engine net this message tr = (Normal first, tr ++ [c1]))
  /\ (truthy (field first (lit "error")) = true ->
      handleRequest engine net this message tr
      = (Normal (answer message (net (tr ++ [c1]) c2)), tr ++ [c1; c2])).
Proof.
  intros Hn H1 H2 H3 c1 c2 first Hfirst.
  pose proof (@handleRequest_other engine net this message tr Hn H1 H2 H3) as Hrun.
  cbv zeta in Hrun. fold c1 c2 first in Hrun.
  assert (Hrun' : handleRequest engine net this message tr
                  = if truthy (field first (lit "error"))
                    then (Normal (answer message (net (tr ++ [c1]) c2)), tr ++ [c1; c2])
                    else (Normal first, tr ++ [c1])).
  { rewrite Hrun. destruct first; [now elim Hfirst | reflexivity ..]. }
  split; [| split].
  - intros He. rewrite Hrun', He. reflexivity.
  - intros He. now rewrite Hrun', He.
  - intros He. now rewrite Hrun', He.
Qed.

Lemma fallback_chain_witness :
  request_envelope "ping" Undefined <> JNull
  /\ ~ has_method (request_envelope "ping" Undefined) "initialize"
  /\ ~ has_method (request_envelope "ping" Undefined) "tools/list"
  /\ ~ has_method (request_envelope "ping" Undefined) "tools/call"
  /\ handleRequest sample_engine (net_of (Responded 503 (lit "Service Unavailable") (Parsed JNull))
                           (ok pong))
       sample_aggregator (request_envelope "ping" Undefined) []
     = (Normal pong,
        [Call default_existing_url (request_envelope "ping" Undefined);
         Call default_atlassian_url (request_envelope "ping" Undefined)]).
Proof.
  split; [discriminate |]. split; [discriminate |]. split; [discriminate |].
  split; [discriminate |].
  destruct (@fallback_chain sample_engine
              (net_of (Responded 503 (lit "Service Unavailable") (Parsed JNull))
                      (ok pong))
              sample_aggregator (request_envelope "ping" Undefined) [])
    as (_ & _ & Hsecond); try discriminate.
  apply Hsecond. reflexivity.
Defined.

(** C7, as the specification words it, fails: the existing server answers
    [{"jsonrpc":"2.0","id":7,"error":0}], which carries an [error] member,
    and it is returned without a call to the Atlassian server. *)
Lemma fallback_chain_counterexample :
  ~ fallback_as_claimed sample_engine (net_of (ok zero_error_answer) (ok pong))
      sample_aggregator (request_envelope "ping" Undefined).
Proof.
  intros [_ H]. assert (Hrun := H ltac:(discriminate)).
  vm_compute in Hrun. discriminate Hrun.
Qed.

(** ** The HTTP entry point *)

(** A POST whose body does not parse is answered 400 with the parse-error
    envelope, and no backend is contacted. *)
Lemma fetch_unparseable engine net (request : Request) (env : Env) (e : thrown)
    (tr : list call) :
  req_method request = lit "POST" ->
  req_json request = Unparseable e ->
  fetch engine net request env tr = (Normal parse_error_response, tr)
  /\ status parse_error_response = 400%N
  /\ error_code_of (match body parse_error_response with
                    | JsonBody j => j
                    | _ => JNull
                    end) = Val (JNum (-32700)%float).
Proof.
  intros Hm Hb. split; [| split; reflexivity].
  unfold fetch. rewrite Hm, Hb.
  change (jsstring_eqb (lit "POST") (lit "OPTIONS")) with false.
  change (jsstring_eqb (lit "POST") (lit "GET")) with false.
  rewrite !andb_false_r.
  change (jsstring_eqb (lit "POST") (lit "POST")) with true.
  reflexivity.
Qed.

(** C8, at inputs where the code departs from it.  The body
    [{"jsonrpc":"2.0","id":7,"method":"tools/call","params":{"name":5}}]
    parses, [handleRequest] raises a [TypeError] on [startsWith], and the
    entry point answers 400 with the parse-error envelope.  The same
    happens to [{"jsonrpc":"2.0","id":7,"method":"ping"}] when the existing
    server answers 200 with the body [null]: the read of [.error] raises. *)
Theorem fetch_parseable_body_answered_400 engine :
  handleRequest engine net_down (constructor no_env) (call_of (JNum 5)) []
  = (Abrupt (NotAFunction (lit "startsWith")), [])
  /\ fetch engine net_down (post (Parsed (call_of (JNum 5)))) no_env []
     = (Normal parse_error_response, [])
  /\ fetch engine (net_of (ok JNull) (ok pong))
       (post (Parsed (request_envelope "ping" Undefined))) no_env []
     = (Normal parse_error_response,
        [Call default_existing_url (request_envelope "ping" Undefined)])
  /\ status parse_error_response = 400%N.
Proof. repeat split; reflexivity. Qed.

(** ** Totality *)

Lemma answer_shape (message : json) (r : fetch_result) :
  (exists why, failure_cause r why
               /\ answer message r
                  = error_envelope (id_of message) internal_error_code
                      (lit "Failed to contact server: " ++ why))
  \/ (exists j, delivered r j /\ answer message r = j).
Proof.
  destruct (failure_or_delivered r) as [[why Hwhy] | [j Hj]].
  - left. exists why. split; [assumption | now apply answer_failed].
  - right. exists j. split; [assumption | now apply answer_delivered].
Qed.

(** What the client hands back is an envelope of the router's making or
    the body of a delivered answer. *)
Lemma answer_well_formed_or_delivered net (message : json) (h : list call) (c : call) :
  (well_formed (answer message (net h c))
   \/ exists h' c', delivered (net h' c') (answer message (net h c)))
  /\ ((forall h' c', exists why, failure_cause (net h' c') why) ->
      well_formed (answer message (net h c))).
Proof.
  destruct (answer_shape message (net h c)) as [(why & Hf & ->) | (j & Hd & ->)].
  - split; [left |]; intros; apply well_formed_error_envelope.
  - split; [right; now exists h, c |].
    intros Hall. destruct (Hall h c) as [why Hf].
    exfalso. eapply delivered_not_failed; eassumption.
Qed.

(** C9, as the code has it.  On an envelope whose tools/call name, when it
    is truthy, is a string, and with backends that never answer with the
    JSON value [null], [handleRequest] completes normally.  What it returns
    is a well-formed envelope of its own making (the initialize answer, the
    merged catalogue, the invalid-params error, the error envelope of a
    failed call) or the body of a delivered backend answer, passed on as it
    came; when every outbound call fails it is always a well-formed
    envelope. *)
Theorem handleRequest_completes engine net this (message : json) (tr : list call) :
  message <> JNull ->
  (has_method message "tools/call" ->
   truthy (tool_name_of message) = true ->
   exists n, tool_name_of message = Val (JStr n)) ->
  (forall h c, ~ delivered (net h c) JNull) ->
  exists response tr',
    handleRequest engine net this message tr = (Normal response, tr')
    /\ (well_formed response \/ exists h c, delivered (net h c) response)
    /\ ((forall h c, exists why, failure_cause (net h c) why) ->
        well_formed response).
Proof.
  intros Hn Hname Hnull.
  destruct (strict_eq_string (field message (lit "method")) (lit "initialize")) eqn:E1.
  { apply strict_eq_string_true in E1. do 2 eexists.
    split; [apply handleRequest_initialize; exact E1 |].
    split; [left |]; intros; apply well_formed_result_envelope. }
  destruct (strict_eq_string (field message (lit "method")) (lit "tools/list")) eqn:E2.
  { apply strict_eq_string_true in E2. do 2 eexists.
    split; [apply handleRequest_tools_list; exact E2 |].
    split; [left |]; intros; apply well_formed_result_envelope. }
  destruct (strict_eq_string (field message (lit "method")) (lit "tools/call")) eqn:E3.
  { apply strict_eq_string_true in E3.
    rewrite handleRequest_tools_call by exact E3.
    destruct (truthy (tool_name_of message)) eqn:Ht; cbn [negb].
    - destruct (Hname E3 eq_refl) as [n Hstr]. rewrite Hstr.
      rewrite forwardRequest_answer by assumption.
      do 2 eexists. split; [reflexivity |].
      apply answer_well_formed_or_delivered.
    - do 2 eexists. split; [reflexivity |].
      split; [left |]; intros; apply well_formed_error_envelope. }
  apply strict_eq_string_false in E1, E2, E3.
  rewrite (@handleRequest_other engine net this message tr Hn E1 E2 E3). cbv zeta.
  set (c1 := Call (existingServerUrl this) message).
  set (c2 := Call (atlassianServerUrl this) message).
  destruct (answer_shape message (net tr c1)) as [(why & Hf & ->) | (j & Hd & ->)].
  - rewrite error_of_error_envelope.
    replace (error_envelope (id_of message) internal_error_code
               (lit "Failed to contact server: " ++ why))
      with (JObj (defined_props
                    [ (lit "jsonrpc", Val (JStr (lit "2.0")));
                      (lit "id", id_of message);
                      (lit "error",
                       Val (JObj [ (lit "code", JNum internal_error_code);
                                   (lit "message",
                                    JStr (lit "Failed to contact server: " ++ why)) ])) ]))
      by reflexivity.
    cbn [truthy]. do 2 eexists. split; [reflexivity |].
    apply answer_well_formed_or_delivered.
  - assert (Hj : j <> JNull) by (intros ->; exact (Hnull _ _ Hd)).
    assert (Hok : (well_formed j \/ exists h c, delivered (net h c) j)
                  /\ ((forall h c, exists why, failure_cause (net h c) why) ->
                      well_formed j)).
    { split; [right; now exists tr, c1 |].
      intros Hall. destruct (Hall tr c1) as [why Hf].
      exfalso. eapply delivered_not_failed; eassumption. }
    destruct (truthy (field j (lit "error"))) eqn:He.
    + do 2 eexists. split.
      * destruct j; [now elim Hj | reflexivity ..].
      * apply answer_well_formed_or_delivered.
    + do 2 eexists. split.
      * destruct j; [now elim Hj | reflexivity ..].
      * exact Hok.
Qed.

Lemma handleRequest_completes_witness :
  request_envelope "ping" Undefined <> JNull
  /\ (forall h c, ~ delivered (net_down h c) JNull)
  /\ exists response tr',
       handleRequest sample_engine net_down sample_aggregator
         (request_envelope "ping" Undefined) []
       = (Normal response, tr')
       /\ well_formed response.
Proof.
  assert (Hnever : forall h c, ~ delivered (net_down h c) JNull)
    by (intros h c (s & t & _ & H); discriminate H).
  split; [discriminate |]. split; [exact Hnever |].
  destruct (@handleRequest_completes sample_engine net_down sample_aggregator
              (request_envelope "ping" Undefined) [])
    as (response & tr' & Hrun & _ & Hdown).
  - discriminate.
  - intros H. discriminate H.
  - exact Hnever.
  - exists response, tr'. split; [exact Hrun |].
    apply Hdown. intros h c. eexists. constructor.
Defined.

(** C9, as the specification words it, fails: the existing server answers
    the call of "echo" with [{"ok":true}] and status 200, and that body,
    which has no [jsonrpc], [result] or [error], is what [handleRequest]
    returns. *)
Lemma handleRequest_completes_counterexample :
  ~ total_as_claimed sample_engine (net_of (ok plain_answer) (ok pong)) sample_aggregator
      (call_of (JStr (lit "echo"))).
Proof.
  intros (response & tr & Hrun & Hjsonrpc & _).
  vm_compute in Hrun. injection Hrun as <- _.
  discriminate Hjsonrpc.
Qed.

(** ** Further properties of the aggregator *)

Lemma method_cases (message : json) :
  has_method message "initialize" \/ has_method message "tools/list"
  \/ has_method message "tools/call"
  \/ (~ has_method message "initialize" /\ ~ has_method message "tools/list"
      /\ ~ has_method message "tools/call").
Proof.
  unfold has_method.
  destruct (strict_eq_string (field message (lit "method")) (lit "initialize")) eqn:E1;
    [apply strict_eq_string_true in E1; now left |].
  destruct (strict_eq_string (field message (lit "method")) (lit "tools/list")) eqn:E2;
    [apply strict_eq_string_true in E2; now right; left |].
  destruct (strict_eq_string (field message (lit "method")) (lit "tools/call")) eqn:E3;
    [apply strict_eq_string_true in E3; now right; right; left |].
  apply strict_eq_string_false in E1, E2, E3. now right; right; right.
Qed.

Lemma has_method_exclusive (message : json) (m m' : string) :
  has_method message m -> has_method message m' -> lit m = lit m'.
Proof. unfold has_method. intros -> H. now injection H. Qed.

(** X1.  The initialize handshake is answered by the aggregator itself: the
    fixed capabilities under the id of the request, and no outbound call,
    whatever the network would do. *)
Theorem initialize_is_local engine net this (message : json) (tr : list call) :
  has_method message "initialize" ->
  exists response,
    handleRequest engine net this message tr = (Normal response, tr)
    /\ id_of response = id_of message
    /\ field response (lit "error") = Undefined
    /\ field response (lit "result") = Val initialize_result
    /\ field initialize_result (lit "protocolVersion") = Val (JStr (lit "2024-11-05"))
    /\ field initialize_result (lit "capabilities")
       = Val (JObj [ (lit "tools", JObj []) ]).
Proof.
  intros Hm. eexists. split; [now apply handleRequest_initialize |].
  split; [apply id_of_result_envelope |].
  repeat split; destruct (id_of message); reflexivity.
Qed.

Lemma initialize_is_local_witness :
  has_method (request_envelope "initialize" Undefined) "initialize"
  /\ exists response,
       handleRequest sample_engine net_down sample_aggregator
         (request_envelope "initialize" Undefined) []
       = (Normal response, [])
       /\ id_of response = Val (JNum 7).
Proof.
  split; [reflexivity |].
  destruct (@initialize_is_local sample_engine net_down sample_aggregator
              (request_envelope "initialize" Undefined) [])
    as (response & Hrun & Hid & _); [reflexivity |].
  exists response. split; [exact Hrun | exact Hid].
Defined.

(** X2.  [forwardRequest] makes exactly one outbound call, to the given server
    and with the given message, whatever the outcome: a failed call is not
    tried again. *)
Theorem forwardRequest_one_call net (serverUrl : jsstring) (message : json)
    (tr : list call) :
  snd (forwardRequest net serverUrl message tr) = tr ++ [Call serverUrl message].
Proof.
  unfold forwardRequest, bind, fetch_post.
  destruct (attempt _); [reflexivity |].
  destruct message; reflexivity.
Qed.

(** X3.  A body delivered with a 2xx status is handed back as it is, for any
    message and any body: [forwardRequest] does not look into it. *)
Theorem forwardRequest_delivers_verbatim net (serverUrl : jsstring)
    (message j : json) (tr : list call) :
  delivered (net tr (Call serverUrl message)) j ->
  forwardRequest net serverUrl message tr
  = (Normal j, tr ++ [Call serverUrl message]).
Proof.
  intros Hd. apply attempt_delivered in Hd.
  unfold forwardRequest, bind, fetch_post. now rewrite Hd.
Qed.

Lemma forwardRequest_delivers_verbatim_witness :
  delivered (net_of (ok plain_answer) (ok pong) [] (Call default_existing_url JNull))
    plain_answer
  /\ forwardRequest (net_of (ok plain_answer) (ok pong)) default_existing_url JNull []
     = (Normal plain_answer, [Call default_existing_url JNull]).
Proof.
  assert (Hd : delivered (net_of (ok plain_answer) (ok pong) []
                            (Call default_existing_url JNull)) plain_answer).
  { exists 200%N, (lit "OK"). split; [lia | reflexivity]. }
  split; [exact Hd |].
  exact (@forwardRequest_delivers_verbatim _ _ _ _ [] Hd).
Defined.

(** X4.  [forwardRequest] raises in one situation only: the message is [null]
    and the call fails, so that the [catch] reads [message.id]. *)
Theorem forwardRequest_raises_iff net (serverUrl : jsstring) (message : json)
    (tr : list call) :
  (exists e tr', forwardRequest net serverUrl message tr = (Abrupt e, tr'))
  <-> message = JNull
      /\ exists why, failure_cause (net tr (Call serverUrl message)) why.
Proof.
  split.
  - intros (e & tr' & Hrun).
    destruct (failure_or_delivered (net tr (Call serverUrl message)))
      as [Hfail | [j Hd]].
    + split; [| exact Hfail]. destruct message; try reflexivity;
        rewrite forwardRequest_run in Hrun by discriminate; discriminate Hrun.
    + rewrite (@forwardRequest_delivers_verbatim net serverUrl message j tr Hd) in Hrun. discriminate Hrun.
  - intros [-> [why Hfail]]. apply attempt_failure in Hfail as (e & He & _).
    unfold forwardRequest, bind, fetch_post. rewrite He.
    do 2 eexists. reflexivity.
Qed.

Lemma handleRequest_null engine net this (tr : list call) :
  handleRequest engine net this JNull tr = (Abrupt (ReadOfNullish (lit "method")), tr).
Proof. reflexivity. Qed.

Lemma answer_null_iff (message : json) (r : fetch_result) :
  answer message r = JNull <-> delivered r JNull.
Proof.
  split.
  - intros H. destruct (answer_shape message r) as [(why & _ & He) | (j & Hd & Hj)].
    + rewrite He in H. destruct (id_of message); discriminate H.
    + rewrite Hj in H. now subst j.
  - apply answer_delivered.
Qed.

Lemma null_or_not (message : json) : message = JNull \/ message <> JNull.
Proof. destruct message; [now left | right; discriminate ..]. Qed.

(** X5.  Whatever the envelope and the network, [handleRequest] only adds to
    the trace, makes at most two outbound calls, sends them to the two
    configured servers only, and sends nothing but the envelope itself or
    one of the two internal tools/list requests. *)
Theorem handleRequest_calls_bounded engine net this (message : json) (tr : list call) :
  exists calls,
    snd (handleRequest engine net this message tr) = tr ++ calls
    /\ (List.length calls <= 2)%nat
    /\ Forall (routed this message) calls.
Proof.
  assert (Hnone : forall x : completion json * list call,
             snd x = tr ->
             exists calls, snd x = tr ++ calls /\ (List.length calls <= 2)%nat
                           /\ Forall (routed this message) calls).
  { intros x Hx. exists []. rewrite app_nil_r. repeat split; auto. }
  assert (Hone : forall url, url = existingServerUrl this \/ url = atlassianServerUrl this ->
             forall x : completion json * list call,
             snd x = tr ++ [Call url message] ->
             exists calls, snd x = tr ++ calls /\ (List.length calls <= 2)%nat
                           /\ Forall (routed this message) calls).
  { intros url Hurl x Hx. exists [Call url message].
    split; [exact Hx |]. split; [simpl; lia |].
    constructor; [| constructor]. split; [exact Hurl | now left]. }
  destruct (null_or_not message) as [-> | Hn]; [now apply Hnone |].
  destruct (method_cases message) as [Hm | [Hm | [Hm | (H1 & H2 & H3)]]].
  - rewrite handleRequest_initialize by assumption. now apply Hnone.
  - rewrite handleRequest_tools_list by assumption. cbv zeta.
    eexists. split; [reflexivity |]. split; [simpl; lia |].
    constructor; [| constructor; [| constructor]]; split; simpl; auto.
  - rewrite handleRequest_tools_call by assumption.
    destruct (truthy (tool_name_of message)); cbn [negb]; [| now apply Hnone].
    destruct (tool_name_of message) as [|[ | b | x | n | elems | props ]];
      try (now apply Hnone).
    destruct (isAtlassianTool n).
    + apply Hone with (atlassianServerUrl this); [now right |].
      apply forwardRequest_one_call.
    + apply Hone with (existingServerUrl this); [now left |].
      apply forwardRequest_one_call.
  - rewrite (@handleRequest_other engine net this message tr Hn H1 H2 H3). cbv zeta.
    set (first := answer message _).
    assert (Htwo : forall x : completion json * list call,
               snd x = tr ++ [Call (existingServerUrl this) message;
                              Call (atlassianServerUrl this) message] ->
               exists calls, snd x = tr ++ calls /\ (List.length calls <= 2)%nat
                             /\ Forall (routed this message) calls).
    { intros x Hx. eexists. split; [exact Hx |]. split; [simpl; lia |].
      constructor; [| constructor; [| constructor]]; split; simpl; auto. }
    destruct first;
      try (destruct (truthy _); [now apply Htwo |]);
      (apply Hone with (existingServerUrl this); [now left | reflexivity]).
Qed.

(** X6.  [handleRequest] raises in three situations and in no other: the
    envelope is [null]; the method is tools/call and the name is truthy
    but no string; the method is none of the three known ones and the
    existing server delivers the body [null]. *)
Theorem handleRequest_raises_iff engine net this (message : json) (tr : list call) :
  (exists e tr', handleRequest engine net this message tr = (Abrupt e, tr'))
  <-> message = JNull
      \/ (has_method message "tools/call"
          /\ truthy (tool_name_of message) = true
          /\ forall n, tool_name_of message <> Val (JStr n))
      \/ (message <> JNull
          /\ ~ has_method message "initialize"
          /\ ~ has_method message "tools/list"
          /\ ~ has_method message "tools/call"
          /\ delivered (net tr (Call (existingServerUrl this) message)) JNull).
Proof.
  split.
  - intros (e & tr' & Hrun).
    destruct message as [ | b | x | s | elems | props ] eqn:Hmsg; [now left | ..];
      rewrite <- Hmsg in *;
      assert (Hn : message <> JNull) by (rewrite Hmsg; discriminate); clear Hmsg;
      right;
      (destruct (method_cases message) as [Hm | [Hm | [Hm | (H1 & H2 & H3)]]];
       [ rewrite handleRequest_initialize in Hrun by assumption; discriminate Hrun
       | rewrite handleRequest_tools_list in Hrun by assumption; discriminate Hrun
       | left; rewrite handleRequest_tools_call in Hrun by assumption;
         destruct (truthy (tool_name_of message)) eqn:Ht; cbn [negb] in Hrun;
         [| discriminate Hrun];
         split; [assumption |]; split; [reflexivity |];
         intros n Hname; rewrite Hname in Hrun;
         rewrite forwardRequest_answer in Hrun by assumption; discriminate Hrun
       | right; repeat (split; [assumption |]);
         rewrite (@handleRequest_other engine net this message tr Hn H1 H2 H3) in Hrun;
         cbv zeta in Hrun; apply (answer_null_iff message);
         destruct (answer message _); try reflexivity;
         destruct (truthy _); discriminate Hrun ]).
  - intros [-> | [(Hm & Ht & Hname) | (Hn & H1 & H2 & H3 & Hd)]].
    + do 2 eexists. apply handleRequest_null.
    + rewrite handleRequest_tools_call by assumption. rewrite Ht. cbn [negb].
      destruct (tool_name_of message) as [|[ | b | x | s | elems | props ]];
        try (do 2 eexists; reflexivity).
      now elim (Hname s).
    + rewrite (@handleRequest_other engine net this message tr Hn H1 H2 H3). cbv zeta.
      apply (answer_null_iff message) in Hd. rewrite Hd.
      do 2 eexists. reflexivity.
Qed.

(** X7.  A tools/call has no failover: when the call to the owning server
    fails, the caller gets the internal-error envelope with its own id and
    the cause, and the other server is not tried. *)
Theorem tools_call_no_failover engine net this (message : json) (n why : jsstring)
    (tr : list call) :
  has_method message "tools/call" ->
  tool_name_of message = Val (JStr n) ->
  n <> [] ->
  let target := if isAtlassianTool n then atlassianServerUrl this
                else existingServerUrl this in
  failure_cause (net tr (Call target message)) why ->
  handleRequest engine net this message tr
  = (Normal (error_envelope (id_of message) internal_error_code
               (lit "Failed to contact server: " ++ why)),
     tr ++ [Call target message]).
Proof.
  intros Hm Hname Hn target Hfail.
  destruct (@handleRequest_named engine net this message n tr Hm Hname Hn) as [_ Hrun].
  fold target in Hrun. rewrite Hrun. now rewrite (answer_failed message Hfail).
Qed.

Lemma tools_call_no_failover_witness :
  handleRequest sample_engine (net_of (Rejected (ErrorInstance (lit "fetch failed"))) (ok pong))
    sample_aggregator (call_of (JStr (lit "add"))) []
  = (Normal (error_envelope (Val (JNum 7)) internal_error_code
               (lit "Failed to contact server: fetch failed")),
     [Call default_existing_url (call_of (JStr (lit "add")))]).
Proof.
  apply (@tools_call_no_failover sample_engine
           (net_of (Rejected (ErrorInstance (lit "fetch failed"))) (ok pong))
           sample_aggregator (call_of (JStr (lit "add"))) (lit "add")
           (lit "fetch failed") []).
  - reflexivity.
  - reflexivity.
  - discriminate.
  - constructor.
Defined.

(** X8.  For a method that is none of the three known ones, a failed call to
    the existing server always leads to the Atlassian server; when that
    call fails too, the caller gets the internal-error envelope with its
    own id and the cause of the second failure only. *)
Theorem fallback_when_servers_fail engine net this (message : json) (why1 : jsstring)
    (tr : list call) :
  message <> JNull ->
  ~ has_method message "initialize" ->
  ~ has_method message "tools/list" ->
  ~ has_method message "tools/call" ->
  let c1 := Call (existingServerUrl this) message in
  let c2 := Call (atlassianServerUrl this) message in
  failure_cause (net tr c1) why1 ->
  handleRequest engine net this message tr
  = (Normal (answer message (net (tr ++ [c1]) c2)), tr ++ [c1; c2])
  /\ forall why2,
       failure_cause (net (tr ++ [c1]) c2) why2 ->
       handleRequest engine net this message tr
       = (Normal (error_envelope (id_of message) internal_error_code
                    (lit "Failed to contact server: " ++ why2)),
          tr ++ [c1; c2]).
Proof.
  intros Hn H1 H2 H3 c1 c2 Hfail.
  assert (Hrun : handleRequest engine net this message tr
                 = (Normal (answer message (net (tr ++ [c1]) c2)), tr ++ [c1; c2])).
  { rewrite (@handleRequest_other engine net this message tr Hn H1 H2 H3). cbv zeta.
    fold c1 c2. rewrite (answer_failed message Hfail).
    rewrite error_of_error_envelope. destruct (id_of message); reflexivity. }
  split; [exact Hrun |].
  intros why2 Hfail2. rewrite Hrun. now rewrite (answer_failed message Hfail2).
Qed.

Lemma fallback_when_servers_fail_witness :
  handleRequest sample_engine net_down sample_aggregator (request_envelope "ping" Undefined) []
  = (Normal (error_envelope (Val (JNum 7)) internal_error_code
               (lit "Failed to contact server: fetch failed")),
     [Call default_existing_url (request_envelope "ping" Undefined);
      Call default_atlassian_url (request_envelope "ping" Undefined)]).
Proof.
  destruct (@fallback_when_servers_fail sample_engine net_down sample_aggregator
              (request_envelope "ping" Undefined) (lit "fetch failed") [])
    as [_ Hboth]; try discriminate; [constructor |].
  apply Hboth. constructor.
Defined.

Lemma pushed_within engine (items : list json) :
  (List.length items <= max_arguments engine)%nat -> pushed engine items = items.
Proof. intros H. unfold pushed. apply Nat.leb_le in H. now rewrite H. Qed.

Lemma pushed_beyond engine (items : list json) :
  (max_arguments engine < List.length items)%nat -> pushed engine items = [].
Proof. intros H. unfold pushed. apply Nat.leb_gt in H. now rewrite H. Qed.

(** X9.  tools/list with one server down and the other delivering a
    [result.tools] array, whichever of the two it is: the catalogue is
    exactly that array when the engine takes that many arguments in one
    call; a longer array makes [tools.push] raise, the [catch] swallows
    it, and the catalogue is empty.  Both servers are called once. *)
Theorem tools_list_one_server_down engine net this (message : json) (tr : list call)
    (response : json) (elems : list json) (why : jsstring) :
  has_method message "tools/list" ->
  tools_member response = Val (JArr elems) ->
  let c1 := Call (existingServerUrl this) (tools_list_request 1) in
  let c2 := Call (atlassianServerUrl this) (tools_list_request 2) in
  (failure_cause (net tr c1) why /\ delivered (net (tr ++ [c1]) c2) response)
  \/ (delivered (net tr c1) response /\ failure_cause (net (tr ++ [c1]) c2) why) ->
  ((List.length elems <= max_arguments engine)%nat ->
   handleRequest engine net this message tr
   = (Normal (result_envelope (id_of message) (JObj [ (lit "tools", JArr elems) ])),
      tr ++ [c1; c2]))
  /\ ((max_arguments engine < List.length elems)%nat ->
      handleRequest engine net this message tr
      = (Normal (result_envelope (id_of message) (JObj [ (lit "tools", JArr []) ])),
         tr ++ [c1; c2])).
Proof.
  intros Hm Htools c1 c2 Hcase.
  rewrite handleRequest_tools_list by assumption. cbv zeta. fold c1 c2.
  assert (Hsum : contribution engine (answer (tools_list_request 1) (net tr c1))
                 ++ contribution engine
                      (answer (tools_list_request 2) (net (tr ++ [c1]) c2))
                 = pushed engine elems).
  { destruct Hcase as [[Hf Hd] | [Hd Hf]];
      rewrite (answer_failed _ Hf), (answer_delivered _ Hd);
      unfold contribution; rewrite tools_member_error_envelope, Htools.
    - reflexivity.
    - now rewrite app_nil_r. }
  rewrite Hsum. split; intros Hsize.
  - now rewrite pushed_within.
  - now rewrite pushed_beyond.
Qed.

Lemma tools_list_one_server_down_witness :
  handleRequest sample_engine
    (net_of (Rejected NotAnError) (ok (listing 2 (JArr [jira_search_tool]))))
    sample_aggregator (request_envelope "tools/list" Undefined) []
  = (Normal (result_envelope (Val (JNum 7))
               (JObj [ (lit "tools", JArr [jira_search_tool]) ])),
     [Call default_existing_url (tools_list_request 1);
      Call default_atlassian_url (tools_list_request 2)])
  /\ handleRequest {| max_arguments := 0; current_time := [] |}
       (net_of (Rejected NotAnError) (ok (listing 2 (JArr [jira_search_tool]))))
       sample_aggregator (request_envelope "tools/list" Undefined) []
     = (Normal (result_envelope (Val (JNum 7)) (JObj [ (lit "tools", JArr []) ])),
        [Call default_existing_url (tools_list_request 1);
         Call default_atlassian_url (tools_list_request 2)]).
Proof.
  split.
  - apply (@tools_list_one_server_down sample_engine
             (net_of (Rejected NotAnError) (ok (listing 2 (JArr [jira_search_tool]))))
             sample_aggregator (request_envelope "tools/list" Undefined) []
             (listing 2 (JArr [jira_search_tool])) [jira_search_tool]
             (lit "Unknown error")).
    + reflexivity.
    + reflexivity.
    + left. split; [constructor |].
      exists 200%N, (lit "OK"). split; [lia | reflexivity].
    + simpl. lia.
  - apply (@tools_list_one_server_down {| max_arguments := 0; current_time := [] |}
             (net_of (Rejected NotAnError) (ok (listing 2 (JArr [jira_search_tool]))))
             sample_aggregator (request_envelope "tools/list" Undefined) []
             (listing 2 (JArr [jira_search_tool])) [jira_search_tool]
             (lit "Unknown error")).
    + reflexivity.
    + reflexivity.
    + left. split; [constructor |].
      exists 200%N, (lit "OK"). split; [lia | reflexivity].
    + simpl. lia.
Defined.

(** ** Further properties of the entry point *)

Lemma fetch_post_run engine net (request : Request) (env : Env) (tr : list call) :
  req_method request = lit "POST" ->
  fetch engine net request env tr
  = match req_json request with
    | Unparseable _ => (Normal parse_error_response, tr)
    | Parsed message =>
        match handleRequest engine net (constructor env) message tr with
        | (Normal response, tr') =>
            (Normal {| status := 200; body := JsonBody response |}, tr')
        | (Abrupt _, tr') => (Normal parse_error_response, tr')
        end
    end.
Proof.
  intros Hm. unfold fetch. rewrite Hm. decide_literals.
  rewrite !andb_false_r. cbv iota.
  destruct (req_json request); [| reflexivity].
  unfold try_catch, bind. destruct (handleRequest _ _ _ _) as [[r | e] tr']; reflexivity.
Qed.

Lemma fetch_other_run engine net (request : Request) (env : Env) (tr : list call) :
  req_method request <> lit "POST" ->
  exists response,
    fetch engine net request env tr = (Normal response, tr)
    /\ status response = 200%N
    /\ forall j, body response = JsonBody j ->
                 j = status_document (existingServerUrl (constructor env))
                       (atlassianServerUrl (constructor env)) (current_time engine)
                 /\ req_method request = lit "GET"
                 /\ req_pathname request = lit "/status".
Proof.
  intros Hm. unfold fetch.
  destruct (jsstring_eqb (req_method request) (lit "OPTIONS"));
    [eexists; split; [reflexivity |]; split; [reflexivity | discriminate] |].
  destruct (jsstring_eqb (req_pathname request) (lit "/sse")
            && jsstring_eqb (req_method request) (lit "GET"));
    [eexists; split; [reflexivity |]; split; [reflexivity | discriminate] |].
  destruct (jsstring_eqb (req_pathname request) (lit "/status")
            && jsstring_eqb (req_method request) (lit "GET")) eqn:Hs.
  { apply andb_true_iff in Hs as [Hp Hg].
    apply jsstring_eqb_eq in Hp, Hg.
    eexists; split; [reflexivity |]; split; [reflexivity |].
    intros j Hj. injection Hj as <-. now repeat split. }
  destruct (jsstring_eqb (req_method request) (lit "POST")) eqn:Hp;
    [apply jsstring_eqb_eq in Hp; now elim Hm |].
  eexists; split; [reflexivity |]; split; [reflexivity | discriminate].
Qed.

(** X10.  The entry point answers every request: it never raises, the status is
    200 or 400, and it is 400 exactly for a POST whose body does not parse
    or on which [handleRequest] raises. *)
Theorem fetch_always_answers engine net (request : Request) (env : Env) (tr : list call) :
  exists response tr',
    fetch engine net request env tr = (Normal response, tr')
    /\ (status response = 200%N \/ status response = 400%N)
    /\ (status response = 400%N
        <-> req_method request = lit "POST"
            /\ ((exists e, req_json request = Unparseable e)
                \/ exists message e tr'',
                     req_json request = Parsed message
                     /\ handleRequest engine net (constructor env) message tr
                        = (Abrupt e, tr''))).
Proof.
  destruct (jsstring_eqb (req_method request) (lit "POST")) eqn:Hp.
  - apply jsstring_eqb_eq in Hp. rewrite (@fetch_post_run engine net request env tr Hp).
    destruct (req_json request) as [message | e].
    + destruct (handleRequest engine net (constructor env) message tr) as [[r | e] tr'] eqn:Hrun.
      * do 2 eexists. split; [reflexivity |]. split; [now left |]. split.
        -- discriminate.
        -- intros [_ [[e He] | (m & e & tr'' & Hm & Hr)]]; [discriminate He |].
           injection Hm as <-. rewrite Hrun in Hr. discriminate Hr.
      * do 2 eexists. split; [reflexivity |]. split; [now right |]. split.
        -- intros _. split; [assumption |]. right. now exists message, e, tr'.
        -- reflexivity.
    + do 2 eexists. split; [reflexivity |]. split; [now right |]. split.
      * intros _. split; [assumption |]. left. now exists e.
      * reflexivity.
  - assert (Hm : req_method request <> lit "POST").
    { intros H. rewrite H in Hp. discriminate Hp. }
    destruct (@fetch_other_run engine net request env tr Hm) as (response & Hrun & Hs & _).
    exists response, tr. split; [exact Hrun |]. split; [now left |]. split.
    + rewrite Hs. discriminate.
    + intros [H _]. now elim Hm.
Qed.

(** X11.  A request that is no POST is answered by the worker alone:
    status 200 and no outbound call.  Its body is no JSON-RPC envelope:
    the only such answer that carries JSON is that of GET /status, the
    status document, which has no [jsonrpc], [result] or [error]
    member. *)
Theorem fetch_without_post_is_local engine net (request : Request) (env : Env)
    (tr : list call) :
  req_method request <> lit "POST" ->
  exists response,
    fetch engine net request env tr = (Normal response, tr)
    /\ status response = 200%N
    /\ forall j, body response = JsonBody j ->
                 req_method request = lit "GET"
                 /\ req_pathname request = lit "/status"
                 /\ field j (lit "status") = Val (JStr (lit "active"))
                 /\ field j (lit "jsonrpc") = Undefined
                 /\ field j (lit "result") = Undefined
                 /\ field j (lit "error") = Undefined.
Proof.
  intros Hm.
  destruct (@fetch_other_run engine net request env tr Hm)
    as (response & Hrun & Hs & Hbody).
  exists response. split; [exact Hrun |]. split; [exact Hs |].
  intros j Hj. destruct (Hbody j Hj) as (-> & Hg & Hp).
  repeat split; assumption || reflexivity.
Qed.

Lemma fetch_without_post_is_local_witness :
  exists response,
    fetch sample_engine net_down
      {| req_method := lit "GET"; req_pathname := lit "/status";
         req_json := Unparseable NotAnError |} no_env []
    = (Normal response, [])
    /\ status response = 200%N
    /\ forall j, body response = JsonBody j -> field j (lit "jsonrpc") = Undefined.
Proof.
  destruct (@fetch_without_post_is_local sample_engine net_down
              {| req_method := lit "GET"; req_pathname := lit "/status";
                 req_json := Unparseable NotAnError |} no_env [])
    as (response & Hrun & Hs & Hbody); [discriminate |].
  exists response. split; [exact Hrun |]. split; [exact Hs |].
  intros j Hj. now destruct (Hbody j Hj) as (_ & _ & _ & H & _).
Defined.

(** X12.  A POST is handled as a JSON-RPC request whatever its path: /sse and
    /status are special for GET only. *)
Theorem fetch_post_ignores_path engine net (request : Request) (env : Env)
    (tr : list call) :
  req_method request = lit "POST" ->
  fetch engine net request env tr = fetch engine net (post (req_json request)) env tr.
Proof.
  intros Hm. rewrite (@fetch_post_run engine net request env tr Hm).
  now rewrite (@fetch_post_run engine net (post (req_json request)) env tr eq_refl).
Qed.

Lemma fetch_post_ignores_path_witness :
  fetch sample_engine net_down
    {| req_method := lit "POST"; req_pathname := lit "/status";
       req_json := Parsed (request_envelope "initialize" Undefined) |} no_env []
  = fetch sample_engine net_down (post (Parsed (request_envelope "initialize" Undefined))) no_env [].
Proof.
  apply (@fetch_post_ignores_path sample_engine net_down
           {| req_method := lit "POST"; req_pathname := lit "/status";
              req_json := Parsed (request_envelope "initialize" Undefined) |}).
  reflexivity.
Defined.

(** X13.  Whatever envelope [handleRequest] returns, an error envelope
    included, goes out with status 200, and the calls made are those of
    [handleRequest]. *)
Theorem fetch_post_answers_200 engine net (request : Request) (env : Env)
    (message response : json) (tr tr' : list call) :
  req_method request = lit "POST" ->
  req_json request = Parsed message ->
  handleRequest engine net (constructor env) message tr = (Normal response, tr') ->
  fetch engine net request env tr
  = (Normal {| status := 200; body := JsonBody response |}, tr').
Proof.
  intros Hm Hb Hrun. rewrite (@fetch_post_run engine net request env tr Hm). now rewrite Hb, Hrun.
Qed.

Lemma fetch_post_answers_200_witness :
  fetch sample_engine net_down (post (Parsed (request_envelope "tools/call" Undefined))) no_env []
  = (Normal {| status := 200;
               body := JsonBody (error_envelope (Val (JNum 7)) invalid_params_code
                                   (lit "Missing tool name in parameters")) |},
     []).
Proof.
  apply (@fetch_post_answers_200 sample_engine net_down
           (post (Parsed (request_envelope "tools/call" Undefined))) no_env
           (request_envelope "tools/call" Undefined)).
  - reflexivity.
  - reflexivity.
  - reflexivity.
Defined.

(** X14.  The URLs: a binding that is unset or the empty string gives way to
    the default, any other string is used as it is; and GET /status
    reports the two URLs requests are forwarded to, without calling
    them. *)
Theorem configured_urls engine net (request : Request) (env : Env) (tr : list call) :
  req_method request = lit "GET" ->
  req_pathname request = lit "/status" ->
  fetch engine net request env tr
  = (Normal {| status := 200;
               body := JsonBody
                         (status_document (existingServerUrl (constructor env))
                            (atlassianServerUrl (constructor env))
                            (current_time engine)) |}, tr)
  /\ (forall s, EXISTING_MCP_SERVER_URL env = Val (JStr s) -> s <> [] ->
      existingServerUrl (constructor env) = s)
  /\ (EXISTING_MCP_SERVER_URL env = Undefined
      \/ EXISTING_MCP_SERVER_URL env = Val (JStr []) ->
      existingServerUrl (constructor env) = default_existing_url)
  /\ (forall s, ATLASSIAN_MCP_SERVER_URL env = Val (JStr s) -> s <> [] ->
      atlassianServerUrl (constructor env) = s)
  /\ (ATLASSIAN_MCP_SERVER_URL env = Undefined
      \/ ATLASSIAN_MCP_SERVER_URL env = Val (JStr []) ->
      atlassianServerUrl (constructor env) = default_atlassian_url).
Proof.
  intros Hm Hp. split.
  - unfold fetch. rewrite Hm, Hp. decide_literals. reflexivity.
  - unfold constructor; cbn [existingServerUrl atlassianServerUrl].
    repeat split.
    + intros s -> Hs. destruct s; [now elim Hs | reflexivity].
    + intros [-> | ->]; reflexivity.
    + intros s -> Hs. destruct s; [now elim Hs | reflexivity].
    + intros [-> | ->]; reflexivity.
Qed.

Lemma configured_urls_witness :
  fetch sample_engine net_down
    {| req_method := lit "GET"; req_pathname := lit "/status";
       req_json := Unparseable NotAnError |}
    {| EXISTING_MCP_SERVER_URL := Val (JStr []);
       ATLASSIAN_MCP_SERVER_URL := Val (JStr (lit "https://atlassian.example")) |} []
  = (Normal {| status := 200;
               body := JsonBody
                         (status_document default_existing_url
                            (lit "https://atlassian.example")
                            (current_time sample_engine)) |}, []).
Proof.
  destruct (@configured_urls sample_engine net_down
              {| req_method := lit "GET"; req_pathname := lit "/status";
                 req_json := Unparseable NotAnError |}
              {| EXISTING_MCP_SERVER_URL := Val (JStr []);
                 ATLASSIAN_MCP_SERVER_URL := Val (JStr (lit "https://atlassian.example")) |}
              [])
    as (Hrun & _); [reflexivity | reflexivity |].
  exact Hrun.
Defined.

(** ** The Atlassian server *)

Section AtlassianFacts.

Variable number_to_string : float -> jsstring.
Variable run_handler : jsstring -> value -> handler_outcome.

Lemma atlassian_names :
  map fst (Atlassian.initializeTools run_handler)
  = [ lit "jira_search"; lit "jira_create_issue"; lit "confluence_search";
      lit "confluence_create_page"; lit "jira_list_projects";
      lit "confluence_list_spaces" ].
Proof. reflexivity. Qed.

Lemma atlassian_registered (n : jsstring) :
  In n (map fst (Atlassian.initializeTools run_handler)) ->
  exists tool,
    map_get n (Atlassian.initializeTools run_handler) = Some tool
    /\ Atlassian.handler tool = run_handler n
    /\ isAtlassianTool n = true
    /\ n <> [].
Proof.
  rewrite atlassian_names.
  intros [<- | [<- | [<- | [<- | [<- | [<- | []]]]]]];
    (eexists; split; [reflexivity |]; split; [reflexivity |];
     split; [reflexivity | discriminate]).
Qed.

Lemma map_get_none {V : Type} (k : jsstring) (m : list (jsstring * V)) :
  map_get k m = None <-> ~ In k (map fst m).
Proof.
  induction m as [|[k' v] m IH]; simpl.
  - split; [intros _ [] | reflexivity].
  - destruct (jsstring_eqb k k') eqn:E.
    + apply jsstring_eqb_eq in E. subst k'. split; [discriminate |].
      intros H. elim H. now left.
    + rewrite IH. split.
      * intros H [Hk | Hin]; [| now apply H].
        subst k'. now rewrite jsstring_eqb_refl in E.
      * intros H Hin. apply H. now right.
Qed.

Lemma atlassian_tools_list (message : json) (tr : list call) :
  has_method message "tools/list" ->
  Atlassian.handleRequest number_to_string run_handler message tr
  = (Normal (result_envelope (id_of message)
               (JObj [ (lit "tools", JArr (map Atlassian.descriptor (Atlassian.initializeTools run_handler))) ])),
     tr).
Proof.
  intros Hm. pose proof (has_method_not_null Hm) as Hn.
  unfold Atlassian.handleRequest, bind. rewrite member_of_value by assumption.
  cbv beta iota. decide_method. now rewrite member_of_value.
Qed.

Lemma atlassian_tools_call (message : json) (tr : list call) :
  has_method message "tools/call" ->
  Atlassian.handleRequest number_to_string run_handler message tr
  = match field message (lit "params") with
    | Undefined | Val JNull => (Abrupt (ReadOfNullish (lit "name")), tr)
    | Val params =>
        match Atlassian.tools_get run_handler (field params (lit "name")) with
        | None =>
            match Atlassian.template number_to_string (field params (lit "name")) tr with
            | (Normal text, _) =>
                (Normal (error_envelope (id_of message) Atlassian.method_not_found_code
                           (lit "Tool not found: " ++ text)), tr)
            | (Abrupt e, _) => (Abrupt e, tr)
            end
        | Some tool =>
            match Atlassian.handler tool (field params (lit "arguments")) with
            | Returned result => (Normal (result_envelope (id_of message) result), tr)
            | Threw error =>
                (Normal (error_envelope (id_of message) internal_error_code
                           (cause error)), tr)
            end
        end
    end.
Proof.
  intros Hm. pose proof (has_method_not_null Hm) as Hn.
  unfold Atlassian.handleRequest, bind. rewrite member_of_value by assumption.
  cbv beta iota. decide_method. rewrite member_of_value by assumption.
  cbv beta iota.
  destruct (field message (lit "params")) as [|params]; [reflexivity |].
  destruct (null_or_not params) as [-> | Hp]; [reflexivity |].
  rewrite !member_of_value by assumption. cbv beta iota.
  replace (match params with JNull => (Abrupt (ReadOfNullish (lit "name")), tr)
                           | _ => _ end)
    with (match Atlassian.tools_get run_handler (field params (lit "name")) with
          | None =>
              match Atlassian.template number_to_string (field params (lit "name")) tr with
              | (Normal text, _) =>
                  (Normal (error_envelope (id_of message) Atlassian.method_not_found_code
                             (lit "Tool not found: " ++ text)), tr)
              | (Abrupt e, _) => (Abrupt e, tr)
              end
          | Some tool =>
              match Atlassian.handler tool (field params (lit "arguments")) with
              | Returned result => (Normal (result_envelope (id_of message) result), tr)
              | Threw error =>
                  (Normal (error_envelope (id_of message) internal_error_code
                             (cause error)), tr)
              end
          end)
    by (destruct params; [now elim Hp | reflexivity ..]).
  destruct (Atlassian.tools_get _ _) as [tool|].
  - destruct (Atlassian.handler tool _); now rewrite member_of_value.
  - rewrite member_of_value by assumption. cbv beta iota.
    unfold Atlassian.template.
    destruct (field params (lit "name")) as [|j]; [reflexivity |].
    destruct (Atlassian.to_string number_to_string j); reflexivity.
Qed.

Lemma atlassian_other (message : json) (tr : list call) :
  message <> JNull ->
  ~ has_method message "tools/list" ->
  ~ has_method message "tools/call" ->
  Atlassian.handleRequest number_to_string run_handler message tr
  = if strict_eq_string (field message (lit "method")) (lit "initialize")
    then (Normal (result_envelope (id_of message) Atlassian.initialize_result), tr)
    else (Normal (error_envelope (id_of message) Atlassian.method_not_found_code
                    (lit "Method not found")), tr).
Proof.
  intros Hn H1 H2. apply strict_eq_string_false in H1, H2.
  unfold Atlassian.handleRequest, bind. rewrite member_of_value by assumption.
  cbv beta iota. rewrite H1, H2.
  destruct (strict_eq_string (field message (lit "method")) (lit "initialize"));
    cbv beta iota; now rewrite member_of_value.
Qed.

End AtlassianFacts.

(** X15.  The Atlassian server lists its six tools in the order they were
    registered, each with a name, a description and an input schema, and
    the aggregator's classifier sends every one of these names to the
    Atlassian server. *)
Theorem atlassian_catalogue_is_routed number_to_string run_handler
    (message : json) (tr : list call) :
  has_method message "tools/list" ->
  exists listed,
    Atlassian.handleRequest number_to_string run_handler message tr
    = (Normal (result_envelope (id_of message) (JObj [ (lit "tools", JArr listed) ])),
       tr)
    /\ map (fun t => field t (lit "name")) listed
       = map (fun n => Val (JStr (lit n)))
           [ "jira_search"; "jira_create_issue"; "confluence_search";
             "confluence_create_page"; "jira_list_projects";
             "confluence_list_spaces" ]%string
    /\ Forall (fun t => exists n,
                 field t (lit "name") = Val (JStr n)
                 /\ isAtlassianTool n = true
                 /\ field t (lit "description") <> Undefined
                 /\ field t (lit "inputSchema") <> Undefined) listed.
Proof.
  intros Hm. eexists. split; [now apply atlassian_tools_list |].
  split; [reflexivity |].
  repeat constructor;
    (eexists; split; [reflexivity |]; split; [reflexivity |]; split; discriminate).
Qed.

Lemma atlassian_catalogue_is_routed_witness :
  exists listed,
    Atlassian.handleRequest (fun _ => []) (fun _ _ => Threw NotAnError)
      (tools_list_request 2) []
    = (Normal (result_envelope (Val (JNum 2)) (JObj [ (lit "tools", JArr listed) ])), [])
    /\ List.length listed = 6%nat.
Proof.
  destruct (@atlassian_catalogue_is_routed (fun _ => []) (fun _ _ => Threw NotAnError)
              (tools_list_request 2) [])
    as (listed & Hrun & Hnames & _); [reflexivity |].
  exists listed. split; [exact Hrun |].
  rewrite <- (length_map (fun t => field t (lit "name"))), Hnames. reflexivity.
Defined.

(** X16.  A tools/call of a name that is a string but no registered tool is
    answered with code -32601 and "Tool not found: " followed by the name,
    under the id of the request. *)
Theorem atlassian_unknown_tool number_to_string run_handler
    (message : json) (n : jsstring) (tr : list call) :
  has_method message "tools/call" ->
  tool_name_of message = Val (JStr n) ->
  ~ In n (map fst (Atlassian.initializeTools run_handler)) ->
  Atlassian.handleRequest number_to_string run_handler message tr
  = (Normal (error_envelope (id_of message) (-32601)%float
               (lit "Tool not found: " ++ n)), tr).
Proof.
  intros Hm Hname Hnot. rewrite atlassian_tools_call by assumption.
  unfold tool_name_of in Hname.
  destruct (field message (lit "params")) as [|params]; [discriminate Hname |].
  destruct params; try discriminate Hname.
  rewrite Hname. cbn [Atlassian.tools_get].
  apply map_get_none in Hnot. rewrite Hnot. reflexivity.
Qed.

Lemma atlassian_unknown_tool_witness :
  Atlassian.handleRequest (fun _ => []) (fun _ _ => Threw NotAnError)
    (call_of (JStr (lit "add"))) []
  = (Normal (error_envelope (Val (JNum 7)) (-32601)%float
               (lit "Tool not found: add")), []).
Proof.
  apply (@atlassian_unknown_tool (fun _ => []) (fun _ _ => Threw NotAnError)
           (call_of (JStr (lit "add"))) (lit "add") []).
  - reflexivity.
  - reflexivity.
  - intros H. vm_compute in H. intuition discriminate.
Defined.

(** X17.  A tools/call without a name is not rejected as such: it is looked up
    like any other and answered "Tool not found: undefined". *)
Theorem atlassian_missing_name number_to_string run_handler
    (message params : json) (tr : list call) :
  has_method message "tools/call" ->
  field message (lit "params") = Val params ->
  params <> JNull ->
  field params (lit "name") = Undefined ->
  Atlassian.handleRequest number_to_string run_handler message tr
  = (Normal (error_envelope (id_of message) (-32601)%float
               (lit "Tool not found: undefined")), tr).
Proof.
  intros Hm Hp Hn Hname. rewrite atlassian_tools_call by assumption.
  rewrite Hp, Hname. destruct params; [now elim Hn | reflexivity ..].
Qed.

Lemma atlassian_missing_name_witness :
  Atlassian.handleRequest (fun _ => []) (fun _ _ => Threw NotAnError)
    (request_envelope "tools/call" (Val (JObj []))) []
  = (Normal (error_envelope (Val (JNum 7)) (-32601)%float
               (lit "Tool not found: undefined")), []).
Proof.
  apply (@atlassian_missing_name (fun _ => []) (fun _ _ => Threw NotAnError)
           (request_envelope "tools/call" (Val (JObj []))) (JObj []) []).
  - reflexivity.
  - reflexivity.
  - discriminate.
  - reflexivity.
Defined.

(** X18.  A tools/call of a registered tool runs the handler of that tool on
    [params.arguments].  What the handler returns comes back as the result
    under the id of the request; what it throws comes back as an error
    envelope with code -32603 and the message of the error ("Unknown
    error" for a thrown value that is no [Error]); nothing is raised. *)
Theorem atlassian_registered_tool number_to_string run_handler
    (message params : json) (n : jsstring) (tr : list call) :
  has_method message "tools/call" ->
  field message (lit "params") = Val params ->
  field params (lit "name") = Val (JStr n) ->
  In n (map fst (Atlassian.initializeTools run_handler)) ->
  Atlassian.handleRequest number_to_string run_handler message tr
  = match run_handler n (field params (lit "arguments")) with
    | Returned result => (Normal (result_envelope (id_of message) result), tr)
    | Threw (ErrorInstance text) =>
        (Normal (error_envelope (id_of message) (-32603)%float text), tr)
    | Threw NotAnError =>
        (Normal (error_envelope (id_of message) (-32603)%float (lit "Unknown error")), tr)
    end.
Proof.
  intros Hm Hp Hname Hin. rewrite atlassian_tools_call by assumption.
  rewrite Hp, Hname. cbn [Atlassian.tools_get].
  destruct (@atlassian_registered run_handler n Hin) as (tool & Hget & Hh & _).
  rewrite Hget, Hh.
  assert (Hnn : params <> JNull) by (intros ->; discriminate Hname).
  destruct params; [now elim Hnn | ..];
    (destruct (run_handler n _) as [result | [text |]]; reflexivity).
Qed.

Lemma atlassian_registered_tool_witness :
  Atlassian.handleRequest (fun _ => [])
    (fun _ args => match args with Val j => Returned j | Undefined => Threw NotAnError end)
    (request_envelope "tools/call"
       (Val (JObj [ (lit "name", JStr (lit "jira_list_projects"));
                    (lit "arguments", JObj []) ]))) []
  = (Normal (result_envelope (Val (JNum 7)) (JObj [])), []).
Proof.
  apply (@atlassian_registered_tool (fun _ => [])
           (fun _ args => match args with Val j => Returned j
                                     | Undefined => Threw NotAnError end)
           (request_envelope "tools/call"
              (Val (JObj [ (lit "name", JStr (lit "jira_list_projects"));
                           (lit "arguments", JObj []) ])))
           (JObj [ (lit "name", JStr (lit "jira_list_projects"));
                   (lit "arguments", JObj []) ])
           (lit "jira_list_projects") []).
  - reflexivity.
  - reflexivity.
  - reflexivity.
  - vm_compute. tauto.
Defined.

(** X19.  Every tool the server lists can be called: a tools/call of a listed
    name is never answered "Tool not found", it completes with the result
    of the handler or with the internal-error envelope. *)
Theorem atlassian_listed_tools_are_callable number_to_string run_handler
    (listing_request call_request params : json) (listed : list json)
    (t : json) (n : jsstring) (tr tr' : list call) :
  has_method listing_request "tools/list" ->
  Atlassian.handleRequest number_to_string run_handler listing_request tr
  = (Normal (result_envelope (id_of listing_request)
               (JObj [ (lit "tools", JArr listed) ])), tr) ->
  In t listed ->
  field t (lit "name") = Val (JStr n) ->
  has_method call_request "tools/call" ->
  field call_request (lit "params") = Val params ->
  field params (lit "name") = Val (JStr n) ->
  exists response,
    Atlassian.handleRequest number_to_string run_handler call_request tr'
    = (Normal response, tr')
    /\ id_of response = id_of call_request
    /\ (error_code_of response = Undefined
        \/ error_code_of response = Val (JNum (-32603)%float)).
Proof.
  intros Hl Hrun Hin Hname Hc Hp Hn.
  rewrite atlassian_tools_list in Hrun by assumption.
  assert (Hlisted : listed = map Atlassian.descriptor (Atlassian.initializeTools run_handler)).
  { destruct (id_of listing_request); injection Hrun as Hrun; now symmetry. }
  subst listed. apply in_map_iff in Hin as ([k tool] & <- & Hin).
  injection Hname as <-.
  assert (Hreg : In k (map fst (Atlassian.initializeTools run_handler)))
    by (apply in_map_iff; now exists (k, tool)).
  rewrite (@atlassian_registered_tool number_to_string run_handler call_request
             params k tr' Hc Hp Hn Hreg).
  destruct (run_handler k _) as [result | [text |]]; eexists;
    (split; [reflexivity |]);
    (split; [first [apply id_of_result_envelope | apply id_of_error_envelope] |]).
  - left. unfold error_code_of. destruct (id_of call_request); reflexivity.
  - right. unfold error_code_of. now rewrite error_of_error_envelope.
  - right. unfold error_code_of. now rewrite error_of_error_envelope.
Qed.

Lemma atlassian_listed_tools_are_callable_witness :
  exists response,
    Atlassian.handleRequest (fun _ => []) echo_handler
      (request_envelope "tools/call"
         (Val (JObj [ (lit "name", JStr (lit "jira_search"));
                      (lit "arguments", JObj []) ]))) []
    = (Normal response, [])
    /\ id_of response = Val (JNum 7).
Proof.
  destruct (@atlassian_listed_tools_are_callable (fun _ => []) echo_handler
              (tools_list_request 2)
              (request_envelope "tools/call"
                 (Val (JObj [ (lit "name", JStr (lit "jira_search"));
                              (lit "arguments", JObj []) ])))
              (JObj [ (lit "name", JStr (lit "jira_search"));
                      (lit "arguments", JObj []) ])
              (map Atlassian.descriptor (Atlassian.initializeTools echo_handler))
              (hd JNull (map Atlassian.descriptor (Atlassian.initializeTools echo_handler)))
              (lit "jira_search") [] [])
    as (response & Hrun & Hid & _).
  - reflexivity.
  - reflexivity.
  - left. reflexivity.
  - reflexivity.
  - reflexivity.
  - reflexivity.
  - reflexivity.
  - exists response. split; [exact Hrun | exact Hid].
Defined.

Lemma atlassian_tools_call_params number_to_string run_handler
    (message params : json) (tr : list call) :
  has_method message "tools/call" ->
  field message (lit "params") = Val params ->
  params <> JNull ->
  Atlassian.handleRequest number_to_string run_handler message tr
  = match Atlassian.tools_get run_handler (field params (lit "name")) with
    | None =>
        match Atlassian.template number_to_string (field params (lit "name")) tr with
        | (Normal text, _) =>
            (Normal (error_envelope (id_of message) Atlassian.method_not_found_code
                       (lit "Tool not found: " ++ text)), tr)
        | (Abrupt e, _) => (Abrupt e, tr)
        end
    | Some tool =>
        match Atlassian.handler tool (field params (lit "arguments")) with
        | Returned result => (Normal (result_envelope (id_of message) result), tr)
        | Threw error =>
            (Normal (error_envelope (id_of message) internal_error_code
                       (cause error)), tr)
        end
    end.
Proof.
  intros Hm Hp Hn. rewrite atlassian_tools_call by assumption. rewrite Hp.
  destruct params; [now elim Hn | reflexivity ..].
Qed.

(** X20.  A method the Atlassian server does not know, or no method at all, is
    answered with code -32601 and "Method not found" under the id of the
    request; initialize is answered with the server's own handshake. *)
Theorem atlassian_unknown_method number_to_string run_handler
    (message : json) (tr : list call) :
  message <> JNull ->
  ~ has_method message "tools/list" ->
  ~ has_method message "tools/call" ->
  (has_method message "initialize" ->
   Atlassian.handleRequest number_to_string run_handler message tr
   = (Normal (result_envelope (id_of message) Atlassian.initialize_result), tr))
  /\ (~ has_method message "initialize" ->
      Atlassian.handleRequest number_to_string run_handler message tr
      = (Normal (error_envelope (id_of message) (-32601)%float
                   (lit "Method not found")), tr)).
Proof.
  intros Hn H1 H2. rewrite atlassian_other by assumption. split.
  - intros Hi. apply strict_eq_string_true in Hi. now rewrite Hi.
  - intros Hi. apply strict_eq_string_false in Hi. now rewrite Hi.
Qed.

Lemma atlassian_unknown_method_witness :
  Atlassian.handleRequest (fun _ => []) echo_handler
    (request_envelope "ping" Undefined) []
  = (Normal (error_envelope (Val (JNum 7)) (-32601)%float (lit "Method not found")), []).
Proof.
  destruct (@atlassian_unknown_method (fun _ => []) echo_handler
              (request_envelope "ping" Undefined) [])
    as [_ Hunknown]; try discriminate.
  apply Hunknown. discriminate.
Defined.

(** X21.  The Atlassian server's [handleRequest] raises in these situations and
    in no other: the envelope is [null]; the method is tools/call and
    there are no params (or they are [null]); the method is tools/call and
    the name has no string form (an object with a [toString] member, or an
    array holding one). *)
Theorem atlassian_raises_iff number_to_string run_handler
    (message : json) (tr : list call) :
  (exists e tr',
     Atlassian.handleRequest number_to_string run_handler message tr = (Abrupt e, tr'))
  <-> message = JNull
      \/ (has_method message "tools/call"
          /\ (field message (lit "params") = Undefined
              \/ field message (lit "params") = Val JNull))
      \/ (has_method message "tools/call"
          /\ exists params j,
               field message (lit "params") = Val params
               /\ field params (lit "name") = Val j
               /\ Atlassian.to_string number_to_string j = None).
Proof.
  split.
  - intros (e & tr' & Hrun).
    destruct (null_or_not message) as [-> | Hn]; [now left |]. right.
    destruct (method_cases message) as [Hm | [Hm | [Hm | (H1 & H2 & H3)]]].
    + assert (H2 : ~ has_method message "tools/list")
        by (intros H; pose proof (has_method_exclusive Hm H); discriminate).
      assert (H3 : ~ has_method message "tools/call")
        by (intros H; pose proof (has_method_exclusive Hm H); discriminate).
      rewrite atlassian_other in Hrun by assumption.
      destruct (strict_eq_string _ _); discriminate Hrun.
    + rewrite atlassian_tools_list in Hrun by assumption. discriminate Hrun.
    + destruct (field message (lit "params")) as [|params] eqn:Hp;
        [left; split; [assumption | now left] |].
      destruct (null_or_not params) as [-> | Hpn];
        [left; split; [assumption | now right] |].
      right. split; [assumption |].
      rewrite (@atlassian_tools_call_params number_to_string run_handler
                 message params tr Hm Hp Hpn) in Hrun.
      destruct (Atlassian.tools_get run_handler (field params (lit "name")))
        as [tool|].
      * destruct (Atlassian.handler tool _); discriminate Hrun.
      * unfold Atlassian.template in Hrun.
        destruct (field params (lit "name")) as [|j] eqn:Hname; [discriminate Hrun |].
        destruct (Atlassian.to_string number_to_string j) eqn:Hts;
          [discriminate Hrun |].
        now exists params, j.
    + rewrite atlassian_other in Hrun by assumption.
      destruct (strict_eq_string _ _); discriminate Hrun.
  - intros [-> | [(Hm & Hp) | (Hm & params & j & Hp & Hname & Hts)]].
    + do 2 eexists. reflexivity.
    + rewrite atlassian_tools_call by assumption.
      destruct Hp as [-> | ->]; do 2 eexists; reflexivity.
    + assert (Hpn : params <> JNull) by (intros ->; discriminate Hname).
      rewrite (@atlassian_tools_call_params number_to_string run_handler
                 message params tr Hm Hp Hpn).
      rewrite Hname. unfold Atlassian.template. rewrite Hts.
      destruct j as [ | b | x | s | elems | props ];
        try (cbn in Hts; discriminate Hts);
        cbn [Atlassian.tools_get]; do 2 eexists; reflexivity.
Qed.

Lemma atlassian_trace_untouched number_to_string run_handler
    (message : json) (tr : list call) :
  snd (Atlassian.handleRequest number_to_string run_handler message tr) = tr.
Proof.
  destruct (null_or_not message) as [-> | Hn]; [reflexivity |].
  destruct (method_cases message) as [Hm | [Hm | [Hm | (H1 & H2 & H3)]]].
  - assert (H2 : ~ has_method message "tools/list")
      by (intros H; pose proof (has_method_exclusive Hm H); discriminate).
    assert (H3 : ~ has_method message "tools/call")
      by (intros H; pose proof (has_method_exclusive Hm H); discriminate).
    rewrite atlassian_other by assumption. now destruct (strict_eq_string _ _).
  - now rewrite atlassian_tools_list.
  - rewrite atlassian_tools_call by assumption.
    destruct (field message (lit "params")) as [|params]; [reflexivity |].
    destruct (null_or_not params) as [-> | Hpn]; [reflexivity |].
    replace (match params with JNull => (Abrupt (ReadOfNullish (lit "name")), tr)
                             | _ => _ end)
      with (match Atlassian.tools_get run_handler (field params (lit "name")) with
            | None =>
                match Atlassian.template number_to_string
                        (field params (lit "name")) tr with
                | (Normal text, _) =>
                    (Normal (error_envelope (id_of message)
                               Atlassian.method_not_found_code
                               (lit "Tool not found: " ++ text)), tr)
                | (Abrupt e, _) => (Abrupt e, tr)
                end
            | Some tool =>
                match Atlassian.handler tool (field params (lit "arguments")) with
                | Returned result =>
                    (Normal (result_envelope (id_of message) result), tr)
                | Threw error =>
                    (Normal (error_envelope (id_of message) internal_error_code
                               (cause error)), tr)
                end
            end)
      by (destruct params; [now elim Hpn | reflexivity ..]).
    destruct (Atlassian.tools_get _ _) as [tool|].
    + now destruct (Atlassian.handler tool _).
    + now destruct (Atlassian.template _ _ _) as [[text | e] tr'].
  - rewrite atlassian_other by assumption. now destruct (strict_eq_string _ _).
Qed.

Lemma atlassian_fetch_post number_to_string run_handler (request : Request)
    (tr : list call) :
  req_method request = lit "POST" ->
  Atlassian.fetch number_to_string run_handler request tr
  = match req_json request with
    | Unparseable _ => (Normal Atlassian.parse_error_response, tr)
    | Parsed message =>
        match Atlassian.handleRequest number_to_string run_handler message tr with
        | (Normal response, tr') =>
            (Normal {| Atlassian.status := 200;
                       Atlassian.body := Atlassian.JsonBody response |}, tr')
        | (Abrupt _, tr') => (Normal Atlassian.parse_error_response, tr')
        end
    end.
Proof.
  intros Hm. unfold Atlassian.fetch. rewrite Hm. decide_literals.
  rewrite !andb_false_r. cbv iota.
  destruct (req_json request); [| reflexivity].
  unfold try_catch, bind.
  destruct (Atlassian.handleRequest _ _ _ _) as [[r | e] tr']; reflexivity.
Qed.

(** X22.  The Atlassian worker answers every request without raising; the
    status is 400 exactly for a POST whose body does not parse or on which
    [handleRequest] raises, and 200 otherwise. *)
Theorem atlassian_fetch_always_answers number_to_string run_handler
    (request : Request) (tr : list call) :
  exists response,
    Atlassian.fetch number_to_string run_handler request tr = (Normal response, tr)
    /\ (Atlassian.status response = 200%N \/ Atlassian.status response = 400%N)
    /\ (Atlassian.status response = 400%N
        <-> req_method request = lit "POST"
            /\ ((exists e, req_json request = Unparseable e)
                \/ exists message e,
                     req_json request = Parsed message
                     /\ Atlassian.handleRequest number_to_string run_handler message tr
                        = (Abrupt e, tr))).
Proof.
  destruct (jsstring_eqb (req_method request) (lit "POST")) eqn:Hp.
  - apply jsstring_eqb_eq in Hp.
    rewrite (@atlassian_fetch_post number_to_string run_handler request tr Hp).
    destruct (req_json request) as [message | e].
    + pose proof (atlassian_trace_untouched number_to_string run_handler message tr)
        as Htr.
      destruct (Atlassian.handleRequest number_to_string run_handler message tr)
        as [[r | e] tr'] eqn:Hrun; cbn [snd] in Htr; subst tr'.
      * eexists. split; [reflexivity |]. split; [now left |]. split.
        -- discriminate.
        -- intros [_ [[e He] | (m & e & Hm & Hr)]]; [discriminate He |].
           injection Hm as <-. rewrite Hrun in Hr. discriminate Hr.
      * eexists. split; [reflexivity |]. split; [now right |]. split.
        -- intros _. split; [assumption |]. right. now exists message, e.
        -- reflexivity.
    + eexists. split; [reflexivity |]. split; [now right |]. split.
      * intros _. split; [assumption |]. left. now exists e.
      * reflexivity.
  - assert (Hm : req_method request <> lit "POST").
    { intros H. rewrite H in Hp. discriminate Hp. }
    unfold Atlassian.fetch. rewrite Hp.
    destruct (jsstring_eqb (req_method request) (lit "OPTIONS"));
      [| destruct (jsstring_eqb (req_pathname request) (lit "/sse")
                   && jsstring_eqb (req_method request) (lit "GET"))];
      (eexists; split; [reflexivity |]; split; [now left |]; split;
       [discriminate | intros [H _]; now elim Hm]).
Qed.

Lemma worker_net_serves number_to_string run_handler (url : jsstring)
    (others : network) :
  Atlassian.serves number_to_string run_handler
    (worker_net number_to_string run_handler url others) url.
Proof.
  intros h c Hurl.
  destruct (atlassian_fetch_always_answers number_to_string run_handler
              (post (Parsed (wire (call_body c)))) [])
    as (response & Hrun & _).
  exists response. split; [exact Hrun |].
  unfold worker_net. rewrite Hurl, jsstring_eqb_refl, Hrun.
  destruct response as [status [ | text | j ]]; constructor.
Qed.

Lemma received_json_delivered (status : N) (j : json) (r : fetch_result) :
  Atlassian.received {| Atlassian.status := status;
                        Atlassian.body := Atlassian.JsonBody j |} r ->
  (200 <= status <= 299)%N ->
  delivered r (wire j).
Proof.
  intros Hrec Hok. inversion Hrec as [s txt j' Hs Hnet | |]; subst.
  exists status, txt. split; [exact Hok | reflexivity].
Qed.

Lemma lookup_wire (key : jsstring) (props : list (jsstring * json)) :
  lookup key (map (fun kv => (fst kv, wire (snd kv))) props)
  = wire_value (lookup key props).
Proof.
  induction props as [|[k v] props IH]; [reflexivity |].
  cbn [map lookup fst snd]. destruct (jsstring_eqb key k); [reflexivity | exact IH].
Qed.

(** Reading a member after the wire is reading it before and sending the
    member over the wire. *)
Lemma field_wire (j : json) (key : jsstring) :
  field (wire j) key = wire_value (field j key).
Proof.
  destruct j as [ | b | x | s | elems | props ]; try reflexivity.
  - cbn [wire]. unfold wire_number. now destruct (PrimFloat.ltb _ _).
  - cbn [wire field]. apply lookup_wire.
Qed.

Lemma has_method_wire (message : json) (name : string) :
  has_method message name -> has_method (wire message) name.
Proof. unfold has_method. intros H. now rewrite field_wire, H. Qed.

(** ** The aggregator in front of the Atlassian worker *)

(** X23.  When the Atlassian URL is served by the Atlassian worker and the
    engine takes six arguments in one call, the merged catalogue of a
    tools/list is what the existing server contributes followed by the six
    Atlassian tools in their registration order. *)
Theorem aggregated_catalogue engine number_to_string run_handler net this
    (message : json) (tr : list call) :
  has_method message "tools/list" ->
  Atlassian.serves number_to_string run_handler net (atlassianServerUrl this) ->
  (6 <= max_arguments engine)%nat ->
  let c1 := Call (existingServerUrl this) (tools_list_request 1) in
  let c2 := Call (atlassianServerUrl this) (tools_list_request 2) in
  exists from_existing,
    handleRequest engine net this message tr
    = (Normal (result_envelope (id_of message)
                 (JObj [ (lit "tools",
                          JArr (from_existing
                                ++ map Atlassian.descriptor
                                     (Atlassian.initializeTools run_handler))) ])),
       tr ++ [c1; c2])
    /\ contributes engine (net tr c1) from_existing.
Proof.
  intros Hm Hserves Hlimit c1 c2.
  exists (contribution engine (answer (tools_list_request 1) (net tr c1))).
  split; [| apply contribution_contributes].
  rewrite handleRequest_tools_list by assumption. cbv zeta. fold c1 c2.
  destruct (Hserves (tr ++ [c1]) c2 eq_refl) as (response & Hfetch & Hrec).
  rewrite (@atlassian_fetch_post number_to_string run_handler
             (post (Parsed (wire (call_body c2)))) [] eq_refl) in Hfetch.
  cbn [req_json post call_body c2] in Hfetch.
  change (wire (tools_list_request 2)) with (tools_list_request 2) in Hfetch.
  rewrite atlassian_tools_list in Hfetch by reflexivity.
  set (listing := result_envelope (id_of (tools_list_request 2)) _) in Hfetch.
  assert (Hresp : response = {| Atlassian.status := 200;
                                Atlassian.body := Atlassian.JsonBody listing |})
    by congruence.
  rewrite Hresp in Hrec.
  pose proof (@received_json_delivered 200 listing _ Hrec ltac:(lia)) as Hd.
  rewrite (answer_delivered (tools_list_request 2) Hd).
  replace (contribution engine (wire listing))
    with (pushed engine (map Atlassian.descriptor (Atlassian.initializeTools run_handler)))
    by reflexivity.
  rewrite pushed_within; [reflexivity |].
  rewrite length_map, <- (length_map fst), atlassian_names. exact Hlimit.
Qed.

Lemma aggregated_catalogue_witness :
  handleRequest sample_engine
    (worker_net (fun _ => []) echo_handler default_atlassian_url net_down)
    sample_aggregator (request_envelope "tools/list" Undefined) []
  = (Normal (result_envelope (Val (JNum 7))
               (JObj [ (lit "tools",
                        JArr (map Atlassian.descriptor
                                (Atlassian.initializeTools echo_handler))) ])),
     [Call default_existing_url (tools_list_request 1);
      Call default_atlassian_url (tools_list_request 2)]).
Proof.
  destruct (@aggregated_catalogue sample_engine (fun _ => []) echo_handler
              (worker_net (fun _ => []) echo_handler default_atlassian_url net_down)
              sample_aggregator (request_envelope "tools/list" Undefined) [])
    as (from_existing & Hrun & Hc);
    [reflexivity | apply worker_net_serves | simpl; lia |].
  assert (Hnone : from_existing = []).
  { apply (contributes_functional Hc).
    apply contributes_failed with (lit "fetch failed"). constructor. }
  rewrite Hnone in Hrun. exact Hrun.
Defined.

(** X24.  When the Atlassian URL is served by the Atlassian worker, a
    tools/call of a registered Atlassian tool through the aggregator makes
    one call, to the Atlassian URL.  The worker reads the envelope as it
    comes off the wire, runs the handler of the tool on the
    [params.arguments] it reads, and answers with the handler's result, or
    with the internal-error envelope for what it threw, under the id it
    reads; the aggregator hands back that answer as it comes off the
    wire. *)
Theorem aggregated_call engine number_to_string run_handler net this
    (message params : json) (n : jsstring) (tr : list call) :
  has_method message "tools/call" ->
  field message (lit "params") = Val params ->
  field params (lit "name") = Val (JStr n) ->
  In n (map fst (Atlassian.initializeTools run_handler)) ->
  Atlassian.serves number_to_string run_handler net (atlassianServerUrl this) ->
  handleRequest engine net this message tr
  = (Normal
       (wire match run_handler n (field (wire params) (lit "arguments")) with
             | Returned result => result_envelope (id_of (wire message)) result
             | Threw error =>
                 error_envelope (id_of (wire message)) (-32603)%float (cause error)
             end),
     tr ++ [Call (atlassianServerUrl this) message]).
Proof.
  intros Hm Hp Hname Hin Hserves.
  destruct (@atlassian_registered run_handler n Hin) as (tool & _ & _ & Hatl & Hne).
  assert (Htool : tool_name_of message = Val (JStr n))
    by (unfold tool_name_of; now rewrite Hp).
  destruct (@handleRequest_named engine net this message n tr Hm Htool Hne) as [_ Hrun].
  rewrite Hatl in Hrun. rewrite Hrun.
  set (c := Call (atlassianServerUrl this) message).
  destruct (Hserves tr c eq_refl) as (response & Hfetch & Hrec).
  rewrite (@atlassian_fetch_post number_to_string run_handler
             (post (Parsed (wire (call_body c)))) [] eq_refl) in Hfetch.
  cbn [req_json post call_body c] in Hfetch.
  assert (Hm' : has_method (wire message) "tools/call") by now apply has_method_wire.
  assert (Hp' : field (wire message) (lit "params") = Val (wire params))
    by now rewrite field_wire, Hp.
  assert (Hname' : field (wire params) (lit "name") = Val (JStr n))
    by now rewrite field_wire, Hname.
  rewrite (@atlassian_registered_tool number_to_string run_handler (wire message)
             (wire params) n [] Hm' Hp' Hname' Hin) in Hfetch.
  destruct (run_handler n _) as [result | [text |]];
    (match type of Hfetch with
     | (Normal {| Atlassian.status := _; Atlassian.body := Atlassian.JsonBody ?j |}, _) = _ =>
         assert (Hresp : response = {| Atlassian.status := 200;
                                       Atlassian.body := Atlassian.JsonBody j |})
           by congruence;
         rewrite Hresp in Hrec;
         pose proof (@received_json_delivered 200 j _ Hrec ltac:(lia)) as Hd;
         now rewrite (answer_delivered message Hd)
     end).
Qed.

Lemma aggregated_call_witness :
  handleRequest sample_engine
    (worker_net (fun _ => []) echo_handler default_atlassian_url net_down)
    sample_aggregator
    (request_envelope "tools/call"
       (Val (JObj [ (lit "name", JStr (lit "confluence_list_spaces"));
                    (lit "arguments", JObj [ (lit "limit", JNum infinity) ]) ]))) []
  = (Normal (result_envelope (Val (JNum 7)) (JObj [ (lit "limit", JNull) ])),
     [Call default_atlassian_url
        (request_envelope "tools/call"
           (Val (JObj [ (lit "name", JStr (lit "confluence_list_spaces"));
                        (lit "arguments", JObj [ (lit "limit", JNum infinity) ]) ])))]).
Proof.
  apply (@aggregated_call sample_engine (fun _ => []) echo_handler
           (worker_net (fun _ => []) echo_handler default_atlassian_url net_down)
           sample_aggregator
           (request_envelope "tools/call"
              (Val (JObj [ (lit "name", JStr (lit "confluence_list_spaces"));
                           (lit "arguments", JObj [ (lit "limit", JNum infinity) ]) ])))
           (JObj [ (lit "name", JStr (lit "confluence_list_spaces"));
                   (lit "arguments", JObj [ (lit "limit", JNum infinity) ]) ])
           (lit "confluence_list_spaces") []).
  - reflexivity.
  - reflexivity.
  - reflexivity.
  - vm_compute. tauto.
  - apply worker_net_serves.
Defined.

(** ** [parseLibraryId] *)

Lemma split_without_separator (sep : N) (s : jsstring) :
  ~ In sep s -> split sep s = [s].
Proof.
  induction s as [|c s IH]; intros Hnot; [reflexivity |].
  simpl. destruct (N.eqb c sep) eqn:E.
  - apply N.eqb_eq in E. elim Hnot. now left.
  - rewrite IH; [reflexivity |]. intros H. apply Hnot. now right.
Qed.

Lemma split_at_separator (sep : N) (a b : jsstring) :
  ~ In sep a -> split sep (a ++ sep :: b) = a :: split sep b.
Proof.
  induction a as [|c a IH]; intros Hnot; simpl.
  - now rewrite N.eqb_refl.
  - destruct (N.eqb c sep) eqn:E.
    + apply N.eqb_eq in E. elim Hnot. now left.
    + rewrite IH; [reflexivity |]. intros H. apply Hnot. now right.
Qed.

(** X25.  The ids [resolveLibraryId] builds are read back by [parseLibraryId]:
    "/name" gives the name and "/owner/name" gives the name, as long as
    owner and name hold no slash. *)
Theorem parseLibraryId_round_trip (owner name : jsstring) :
  ~ In slash name ->
  parseLibraryId (library_id name) = name
  /\ (~ In slash owner -> parseLibraryId (repository_id owner name) = name).
Proof.
  intros Hname. split.
  - unfold parseLibraryId, library_id. change (lit "/") with [slash].
    cbn [app startsWith tl]. rewrite N.eqb_refl. cbn [andb].
    now rewrite split_without_separator.
  - intros Howner. unfold parseLibraryId, repository_id. change (lit "/") with [slash].
    cbn [app startsWith tl]. rewrite N.eqb_refl. cbn [andb].
    rewrite split_at_separator by assumption.
    now rewrite split_without_separator.
Qed.

Lemma parseLibraryId_round_trip_witness :
  parseLibraryId (library_id (lit "react")) = lit "react"
  /\ parseLibraryId (repository_id (lit "facebook") (lit "react")) = lit "react".
Proof.
  assert (Hname : ~ In slash (lit "react")) by (vm_compute; intuition discriminate).
  assert (Howner : ~ In slash (lit "facebook")) by (vm_compute; intuition discriminate).
  destruct (@parseLibraryId_round_trip (lit "facebook") (lit "react") Hname) as [H1 H2].
  split; [exact H1 | exact (H2 Howner)].
Defined.

(** X26.  Of an id with a leading slash and more than one segment,
    [parseLibraryId] keeps the second segment only: the first one and
    everything after the second are dropped, so the id "/@scope/pkg" built
    for a scoped package name reads back as "pkg".  Every id without a
    leading slash is returned as it is, whatever it holds. *)
Theorem parseLibraryId_second_segment (first second rest : jsstring) :
  ~ In slash first ->
  ~ In slash second ->
  parseLibraryId (library_id (first ++ lit "/" ++ second)) = second
  /\ parseLibraryId (repository_id first second ++ lit "/" ++ rest) = second
  /\ forall id, ~ has_prefix (lit "/") id -> parseLibraryId id = id.
Proof.
  intros Hfirst Hsecond. split; [| split].
  - unfold parseLibraryId, library_id. change (lit "/") with [slash].
    cbn [app startsWith tl]. rewrite N.eqb_refl. cbn [andb].
    rewrite split_at_separator by assumption.
    now rewrite split_without_separator.
  - unfold parseLibraryId, repository_id. change (lit "/") with [slash].
    rewrite <- !app_assoc. cbn [app startsWith tl]. rewrite N.eqb_refl. cbn [andb].
    rewrite split_at_separator by assumption.
    now rewrite split_at_separator.
  - intros id Hid. unfold parseLibraryId.
    destruct (startsWith id (lit "/")) eqn:E; [| reflexivity].
    apply startsWith_has_prefix in E. now elim Hid.
Qed.

Lemma parseLibraryId_second_segment_witness :
  parseLibraryId (library_id (lit "@scope/pkg")) = lit "pkg"
  /\ parseLibraryId (lit "react") = lit "react"
  /\ parseLibraryId (lit "a/b/c") = lit "a/b/c".
Proof.
  assert (Hscope : ~ In slash (lit "@scope")) by (vm_compute; intuition discriminate).
  assert (Hpkg : ~ In slash (lit "pkg")) by (vm_compute; intuition discriminate).
  destruct (@parseLibraryId_second_segment (lit "@scope") (lit "pkg") [] Hscope Hpkg)
    as (Hsecond & _ & Hplain).
  split; [exact Hsecond |]. split.
  - apply Hplain. intros [rest H]. discriminate H.
  - apply Hplain. intros [rest H]. discriminate H.
Defined.
